(** * Import-time behaviour of the package module [xai/__init__.py]

    The module body is a straight-line Python program: it imports three
    framework classes, builds the Flask application, wraps its WSGI entry
    point, loads [../settings.py] into the configuration, aliases the
    configuration as [SETTINGS], builds the websocket extension and finally
    imports [xai.txtconv.route].

    The embedding keeps Python's object identity: objects live in a heap
    indexed by references, attribute and dictionary stores are done in
    place, and the module namespace maps names to values.  Exceptions are
    results of the computation; the state reached so far is kept when one
    is raised. *)

From Stdlib Require Import Ascii String.
From stdpp Require Import gmap strings list fin_maps.

Local Open Scope string_scope.

(** ** File-system paths *)

(** A path is the list of its components below the file-system root. *)
Abbreviation path := (list string).

(** [split_on sep s acc]: the pieces of [s] between occurrences of [sep];
    [acc] is the piece being read. *)
Fixpoint split_on (sep : Ascii.ascii) (s : string) (acc : string) : list string :=
  match s with
  | EmptyString => [acc]
  | String c s' =>
      if decide (c = sep) then acc :: split_on sep s' ""
      else split_on sep s' (acc +:+ String c "")
  end.

(** One component applied to a directory: [..] goes to the parent (the
    root is its own parent), [.] and the empty component stay. *)
Definition enter (dir : path) (c : string) : path :=
  if decide (c = "..") then removelast dir
  else if decide (c = ".") then dir
  else if decide (c = "") then dir
  else dir ++ [c].

(** [os.path.join(root, rel)] for a relative [rel], as the operating system
    resolves it when the file is opened, in a directory tree without
    symbolic links. *)
Definition resolve (root : path) (rel : string) : path :=
  foldl enter root (split_on "/"%char rel "").

(** The directory that holds a directory or file. *)
Definition parent (p : path) : path := removelast p.

(** ** Values, objects and the interpreter state *)

Abbreviation loc := positive.

Inductive val :=
  | VNone
  | VBool (b : bool)
  | VInt (n : Z)
  | VStr (s : string)
  | VPath (p : path)
  | VRef (l : loc)
  | VBound (self : loc) (meth : string)
  | VClass (name : string)
  | VModule (name : string)
  | VFunc (name : string).

#[global] Instance val_eq_dec : EqDecision val.
Proof. solve_decision. Defined.

(** A heap object: its class, its attribute dictionary, and, for
    dictionary-like objects, its items. *)
Record obj := Obj {
  cls : string;
  attrs : gmap string val;
  items : gmap string val
}.

(** The calls into the frameworks and the import machinery that the module
    body makes, recorded in the order they happen. *)
Inductive event :=
  | EvFlask
  | EvProxyFix
  | EvFromPyfile (file : path)
  | EvSockets
  | EvImportRoute.

#[global] Instance event_eq_dec : EqDecision event.
Proof. solve_decision. Defined.

Record state := State {
  heap : gmap loc obj;
  globals : gmap string val;
  trace : list event
}.

Inductive exn :=
  | NameError (name : string)
  | AttributeError (name : string)
  | TypeError
  | IOError (file : path)
  | ExecError (file : path)
  | ImportError (module : string)
  | KeyError (key : string)
  | Raised (what : string).

(** ** State and exception monad *)

Definition M (A : Type) : Type := state → (exn + A) * state.

Definition ret {A} (a : A) : M A := λ st, (inr a, st).

Definition raise {A} (e : exn) : M A := λ st, (inl e, st).

Definition bind {A B} (m : M A) (k : A → M B) : M B :=
  λ st, match m st with
        | (inr a, st') => k a st'
        | (inl e, st') => (inl e, st')
        end.

Notation "'let!' x ':=' m 'in' k" := (bind m (λ x, k))
  (at level 10, x name, m at level 100, k at level 200,
   format "'[v' 'let!'  x  ':='  m  'in' '/' k ']'").
Notation "m '>>' k" := (bind m (λ _, k))
  (at level 100, k at level 200, right associativity).

(** ** Primitive operations of the interpreter *)

Definition log (e : event) : M unit :=
  λ st, (inr tt, State (heap st) (globals st) (trace st ++ [e])).

(** Loading a global name. *)
Definition get_global (name : string) : M val :=
  λ st, match globals st !! name with
        | Some v => (inr v, st)
        | None => (inl (NameError name), st)
        end.

(** Binding a global name. *)
Definition set_global (name : string) (v : val) : M unit :=
  λ st, (inr tt, State (heap st) (<[name := v]> (globals st)) (trace st)).

(** A new object gets a reference no live object has. *)
Definition alloc (o : obj) : M loc :=
  λ st, let l := fresh (dom (heap st)) in
        (inr l, State (<[l := o]> (heap st)) (globals st) (trace st)).

(** Methods found on the class when the instance has no attribute of that
    name; only the one the module body reads is listed. *)
Definition class_method (c name : string) : bool :=
  bool_decide (c = "Flask" ∧ name = "wsgi_app").

(** [v.name]: the instance attribute if there is one, else the method of
    the class bound to the instance. *)
Definition getattr (v : val) (name : string) : M val :=
  λ st, match v with
        | VRef l =>
            match heap st !! l with
            | Some o =>
                match attrs o !! name with
                | Some x => (inr x, st)
                | None =>
                    if class_method (cls o) name then (inr (VBound l name), st)
                    else (inl (AttributeError name), st)
                end
            | None => (inl (AttributeError name), st)
            end
        | _ => (inl (AttributeError name), st)
        end.

(** [v.name = x], in place. *)
Definition setattr (v : val) (name : string) (x : val) : M unit :=
  λ st, match v with
        | VRef l =>
            match heap st !! l with
            | Some o =>
                (inr tt,
                 State (<[l := Obj (cls o) (<[name := x]> (attrs o)) (items o)]> (heap st))
                       (globals st) (trace st))
            | None => (inl (AttributeError name), st)
            end
        | _ => (inl (AttributeError name), st)
        end.

(** [d[k] = v] for each pair in order, in place; a later pair for the same
    key replaces the earlier one. *)
Definition store_all (kvs : list (string * val)) (d : gmap string val) : gmap string val :=
  foldl (λ m kv, <[kv.1 := kv.2]> m) d kvs.

Definition update_items (v : val) (kvs : list (string * val)) : M unit :=
  λ st, match v with
        | VRef l =>
            match heap st !! l with
            | Some o =>
                (inr tt,
                 State (<[l := Obj (cls o) (attrs o) (store_all kvs (items o))]> (heap st))
                       (globals st) (trace st))
            | None => (inl TypeError, st)
            end
        | _ => (inl TypeError, st)
        end.

(** ** Names that the configuration loader keeps *)

Definition is_upper_char (c : Ascii.ascii) : bool :=
  Nat.leb 65 (nat_of_ascii c) && Nat.leb (nat_of_ascii c) 90.

Definition is_lower_char (c : Ascii.ascii) : bool :=
  Nat.leb 97 (nat_of_ascii c) && Nat.leb (nat_of_ascii c) 122.

Fixpoint has_upper (s : string) : bool :=
  match s with
  | EmptyString => false
  | String c s' => is_upper_char c || has_upper s'
  end.

Fixpoint has_lower (s : string) : bool :=
  match s with
  | EmptyString => false
  | String c s' => is_lower_char c || has_lower s'
  end.

(** [key.isupper()] for a name written in ASCII letters, digits and
    underscores, as the names of a settings file are: it has a cased
    character and no lower-case one. *)
Definition isupper (key : string) : bool := has_upper key && negb (has_lower key).

(** The pairs of a file that [Config.from_object] takes over: those whose
    name is upper case ([if key.isupper(): self[key] = getattr(obj, key)]). *)
Definition settings_of (kvs : list (string * val)) : list (string * val) :=
  List.filter (λ kv, isupper kv.1) kvs.

(** ** What the module body depends on outside this file *)

(** A Python file that is executed for the names it defines: it is absent,
    or executing it raises, or it runs and assigns the names [kvs], in
    this order, a name possibly more than once. *)
Inductive pyfile :=
  | Missing
  | Invalid
  | Defines (kvs : list (string * val)).

(** What [import xai.txtconv.route] finds: no package [xai.txtconv]; the
    package but no module [route] in it; a module whose body registers
    handlers and then raises; or a module whose body registers handlers
    and returns. *)
Inductive route_outcome :=
  | PackageMissing
  | LeafMissing
  | LeafRaises (handlers : list (string * val)) (e : exn)
  | LeafRuns (handlers : list (string * val)).

Record environment := Environment {
  (** the directory that contains the package directory [xai] *)
  base_dir : path;
  (** the files on disk *)
  fs : path → pyfile;
  (** the framework's configuration defaults besides [TESTING] and
      [SECRET_KEY], which every version has *)
  other_defaults : gmap string val;
  (** which of the framework modules can be imported *)
  importable : string → bool;
  (** the names the interpreter predefines in the module namespace besides
      [__name__], each written without its two leading and two trailing
      underscores ([file], [path], [doc], ...) *)
  dunders : list (string * val);
  (** the route-registration module *)
  route_module : route_outcome
}.

(** [Flask.default_config] *)
Definition default_config (E : environment) : gmap string val :=
  <["TESTING" := VBool false]> (<["SECRET_KEY" := VNone]> (other_defaults E)).

Definition dunder (nv : string * val) : string * val :=
  ("__" +:+ nv.1 +:+ "__", nv.2).

(** The module namespace as the interpreter sets it up before it runs the
    body: [__name__] is the package's name, the other names are the
    predefined ones. *)
Definition predefined (E : environment) : gmap string val :=
  <["__name__" := VStr "xai"]> (list_to_map (dunder <$> dunders E)).

Section Bootstrap.

Variable E : environment.

(** The directory of the package named [import_name], which is where the
    framework roots the application. *)
Definition get_root_path (import_name : string) : path :=
  base_dir E ++ [import_name].

(** ** The framework calls *)

(** [from <module> import <name>] of a framework class: it binds the name
    to the class, or raises when the module cannot be imported. *)
Definition import_from (module name : string) : M unit :=
  if importable E module then set_global name (VClass name)
  else raise (ImportError module).

(** [Flask(import_name, static_url_path=..., static_folder=...)], from the
    framework: the application object keeps its arguments and its root
    path, and gets a configuration dictionary of its own
    ([Config(root_path, defaults)]) and a handler table of its own
    ([view_functions]). *)
Definition Flask (import_name static_url_path static_folder : string) : M val :=
  log EvFlask >>
  let root := get_root_path import_name in
  let! a := alloc (Obj "Flask"
                     (list_to_map [("import_name", VStr import_name);
                                   ("static_url_path", VStr static_url_path);
                                   ("static_folder", VStr static_folder);
                                   ("root_path", VPath root)]) ∅) in
  let! c := alloc (Obj "Config" {["root_path" := VPath root]} (default_config E)) in
  setattr (VRef a) "config" (VRef c) >>
  let! vf := alloc (Obj "dict" ∅ ∅) in
  setattr (VRef a) "view_functions" (VRef vf) >>
  ret (VRef a).

(** [ProxyFix(app)], from werkzeug: a middleware object that keeps the
    wrapped WSGI callable in its attribute [app]. *)
Definition ProxyFix (wsgi : val) : M val :=
  log EvProxyFix >>
  let! p := alloc (Obj "ProxyFix" (list_to_map [("app", wsgi); ("num_proxies", VInt 1)]) ∅) in
  ret (VRef p).

(** [config.from_pyfile(filename)], from the framework: the file name is
    joined to the configuration's root path, the file is executed, and
    each upper-case name it defines is stored in the configuration, in
    place. *)
Definition from_pyfile (config : val) (filename : string) : M unit :=
  let! r := getattr config "root_path" in
  match r with
  | VPath root =>
      let file := resolve root filename in
      log (EvFromPyfile file) >>
      match fs E file with
      | Missing => raise (IOError file)
      | Invalid => raise (ExecError file)
      | Defines kvs => update_items config (settings_of kvs)
      end
  | _ => raise TypeError
  end.

(** [Sockets(app)], from flask_sockets: the constructor creates the
    extension object and, given an application, calls [init_app(app)],
    whose body is
    [app.wsgi_app = SocketMiddleware(app.wsgi_app, app, self)];
    the middleware keeps the extension ([ws]), the application ([app]) and
    the previous entry point ([wsgi_app]). *)
Definition Sockets (app : val) : M val :=
  log EvSockets >>
  let! s := alloc (Obj "Sockets" ∅ ∅) in
  let! w := getattr app "wsgi_app" in
  let! m := alloc (Obj "SocketMiddleware"
                     (list_to_map [("ws", VRef s); ("app", app); ("wsgi_app", w)]) ∅) in
  setattr app "wsgi_app" (VRef m) >>
  ret (VRef s).

(** Calling a value: the three framework classes are the callables the
    module body uses; keyword arguments are passed in position. *)
Definition call (f : val) (args : list val) : M val :=
  match f with
  | VClass c =>
      if decide (c = "Flask") then
        match args with
        | [VStr n; VStr u; VStr d] => Flask n u d
        | _ => raise TypeError
        end
      else if decide (c = "ProxyFix") then
        match args with
        | [w] => ProxyFix w
        | _ => raise TypeError
        end
      else if decide (c = "Sockets") then
        match args with
        | [a] => Sockets a
        | _ => raise TypeError
        end
      else raise TypeError
  | _ => raise TypeError
  end.

(** Modelled from the spec: the module [xai.txtconv.route] is not among the
    sources.  Its body attaches request handlers to the application, which
    it reaches through the package's global [app]. *)
Definition register (handlers : list (string * val)) : M unit :=
  let! a := get_global "app" in
  let! vf := getattr a "view_functions" in
  update_items vf handlers.

(** [import xai.txtconv.route]: the package [xai.txtconv] is imported
    first and, once found, bound to [txtconv] in this package's namespace;
    then the module [route] is found and its body run; only when that
    returns is the name [xai] bound.  What the body of the route module
    does is [register], which is modelled from the spec; the package
    [xai.txtconv] itself is taken to have an empty body. *)
Definition import_route : M unit :=
  log EvImportRoute >>
  match route_module E with
  | PackageMissing => raise (ImportError "xai.txtconv")
  | LeafMissing =>
      set_global "txtconv" (VModule "xai.txtconv") >>
      raise (ImportError "xai.txtconv.route")
  | LeafRaises handlers e =>
      set_global "txtconv" (VModule "xai.txtconv") >>
      register handlers >>
      raise e
  | LeafRuns handlers =>
      set_global "txtconv" (VModule "xai.txtconv") >>
      register handlers >>
      set_global "xai" (VModule "xai")
  end.

(** ** The module body, statement by statement *)

(** Lines 1 to 3: the three [from ... import ...] statements.  Line 4 is a
    comment and contributes nothing. *)
Definition imports : M unit :=
  import_from "werkzeug.contrib.fixers" "ProxyFix" >>
  import_from "flask" "Flask" >>
  import_from "flask_sockets" "Sockets".

(** Line 6: [app = Flask(__name__, static_url_path='/static', static_folder='static')] *)
Definition line6 : M unit :=
  let! f := get_global "Flask" in
  let! n := get_global "__name__" in
  let! a := call f [n; VStr "/static"; VStr "static"] in
  set_global "app" a.

(** Line 7: [app.wsgi_app = ProxyFix(app.wsgi_app)] *)
Definition line7 : M unit :=
  let! f := get_global "ProxyFix" in
  let! a := get_global "app" in
  let! w := getattr a "wsgi_app" in
  let! p := call f [w] in
  let! a' := get_global "app" in
  setattr a' "wsgi_app" p.

(** Line 8: [app.config.from_pyfile('../settings.py')] *)
Definition line8 : M unit :=
  let! a := get_global "app" in
  let! c := getattr a "config" in
  from_pyfile c "../settings.py".

(** Line 9: [SETTINGS = app.config] *)
Definition line9 : M unit :=
  let! a := get_global "app" in
  let! c := getattr a "config" in
  set_global "SETTINGS" c.

(** Line 11: [sockets = Sockets(app)] *)
Definition line11 : M unit :=
  let! f := get_global "Sockets" in
  let! a := get_global "app" in
  let! s := call f [a] in
  set_global "sockets" s.

(** Line 13: [import xai.txtconv.route] *)
Definition line13 : M unit := import_route.

(** The statements run in source order; each prefix of the body is named
    by the last line it executes. *)
Definition through6 : M unit := imports >> line6.
Definition through7 : M unit := through6 >> line7.
Definition through8 : M unit := through7 >> line8.
Definition through9 : M unit := through8 >> line9.

(** Everything before the final import. *)
Definition setup : M unit := through9 >> line11.

Definition module_body : M unit := setup >> line13.

(** The state in which the interpreter starts executing the module body:
    whatever objects are already live, and the predefined namespace. *)
Definition initial (h0 : gmap loc obj) : state :=
  State h0 (predefined E) [].

Definition import_xai (h0 : gmap loc obj) : (exn + unit) * state :=
  module_body (initial h0).

End Bootstrap.

(** ** Reading and writing the configuration after the import *)

(** [d[k]] *)
Definition getitem (d : val) (k : string) : M val :=
  λ st, match d with
        | VRef l =>
            match heap st !! l with
            | Some o =>
                match items o !! k with
                | Some x => (inr x, st)
                | None => (inl (KeyError k), st)
                end
            | None => (inl TypeError, st)
            end
        | _ => (inl TypeError, st)
        end.

(** [d[k] = v] *)
Definition setitem (d : val) (k : string) (v : val) : M unit :=
  update_items d [(k, v)].

(** [SETTINGS[k]] and [app.config[k]], and the two stores
    [SETTINGS[k] = v] and [app.config[k] = v], as code running after the
    import would write them. *)
Definition read_SETTINGS (k : string) : M val :=
  let! d := get_global "SETTINGS" in getitem d k.

Definition read_app_config (k : string) : M val :=
  let! a := get_global "app" in
  let! c := getattr a "config" in
  getitem c k.

Definition write_SETTINGS (k : string) (v : val) : M unit :=
  let! d := get_global "SETTINGS" in setitem d k v.

Definition write_app_config (k : string) (v : val) : M unit :=
  let! a := get_global "app" in
  let! c := getattr a "config" in
  setitem c k v.

(** ** Vocabulary of the statements *)

(** The directory of this module, the package directory [xai]. *)
Definition module_dir (E : environment) : path := get_root_path E "xai".

(** The file named [settings.py] one directory above this module. *)
Definition settings_file (E : environment) : path :=
  parent (module_dir E) ++ ["settings.py"].

(** The value a settings file leaves in a name: the last one assigned. *)
Fixpoint assigned (kvs : list (string * val)) (k : string) : option val :=
  match kvs with
  | [] => None
  | (k', v) :: rest =>
      match assigned rest k with
      | Some v' => Some v'
      | None => if decide (k' = k) then Some v else None
      end
  end.

Definition class_of (st : state) (l : loc) : option string :=
  cls <$> heap st !! l.

Definition attr_of (st : state) (l : loc) (name : string) : option val :=
  heap st !! l ≫= λ o, attrs o !! name.

Definition item_of (st : state) (l : loc) (k : string) : option val :=
  heap st !! l ≫= λ o, items o !! k.

(** The directory static files are served from: the application's static
    folder, taken relative to its root path. *)
Definition static_dir (st : state) (l : loc) : option path :=
  match attr_of st l "root_path", attr_of st l "static_folder" with
  | Some (VPath root), Some (VStr folder) => Some (resolve root folder)
  | _, _ => None
  end.

(** The global [SETTINGS] and the attribute [config] of the application
    bound to [app] refer to one live object [c]. *)
Definition aliased (st : state) (a c : loc) : Prop :=
  globals st !! "SETTINGS" = Some (VRef c)
  ∧ globals st !! "app" = Some (VRef a)
  ∧ attr_of st a "config" = Some (VRef c)
  ∧ a ≠ c
  ∧ is_Some (heap st !! c).

(** Whether the import of the route module gets as far as binding the
    package, and the exception it ends with, if any. *)
Definition package_found (o : route_outcome) : bool :=
  match o with PackageMissing => false | _ => true end.

Definition route_error (o : route_outcome) : option exn :=
  match o with
  | PackageMissing => Some (ImportError "xai.txtconv")
  | LeafMissing => Some (ImportError "xai.txtconv.route")
  | LeafRaises _ e => Some e
  | LeafRuns _ => None
  end.

(** [E'] is [E] but for whether the database driver [pymongo], the module
    of the commented-out line 4, can be imported. *)
Definition differ_at_pymongo (E E' : environment) : Prop :=
  base_dir E' = base_dir E
  ∧ fs E' = fs E
  ∧ other_defaults E' = other_defaults E
  ∧ dunders E' = dunders E
  ∧ route_module E' = route_module E
  ∧ ∀ m, m ≠ "pymongo" → importable E' m = importable E m.

(** The three framework modules of lines 1 to 3 can be imported. *)
Definition frameworks_ok (E : environment) : bool :=
  importable E "werkzeug.contrib.fixers"
  && importable E "flask" && importable E "flask_sockets".

(** The configuration entries once the settings file, which assigns
    [kvs], has been loaded. *)
Definition config_after (E : environment) (kvs : list (string * val)) :
    gmap string val :=
  store_all (settings_of kvs) (default_config E).

(** The five framework and import calls in source order. *)
Definition setup_order (E : environment) : list event :=
  [EvFlask; EvProxyFix; EvFromPyfile (settings_file E); EvSockets; EvImportRoute].

(** How often the configuration file was loaded. *)
Definition is_load (e : event) : bool :=
  match e with EvFromPyfile _ => true | _ => false end.

Definition loads (t : list event) : nat := length (List.filter is_load t).

(** ** The objects the module body builds *)

(** The application's attributes once its constructor has returned. *)
Definition base_attrs (E : environment) (c vf : loc) : gmap string val :=
  <["view_functions" := VRef vf]>
    (<["config" := VRef c]>
       (list_to_map [("import_name", VStr "xai");
                     ("static_url_path", VStr "/static");
                     ("static_folder", VStr "static");
                     ("root_path", VPath (module_dir E))])).

(** The application object; [w] is its instance attribute [wsgi_app], if
    it has been assigned. *)
Definition app_obj (E : environment) (c vf : loc) (w : option val) : obj :=
  Obj "Flask"
      (match w with
       | Some v => <["wsgi_app" := v]> (base_attrs E c vf)
       | None => base_attrs E c vf
       end) ∅.

Definition config_obj (E : environment) (cfg : gmap string val) : obj :=
  Obj "Config" {["root_path" := VPath (module_dir E)]} cfg.

Definition handlers_obj (hs : gmap string val) : obj := Obj "dict" ∅ hs.

Definition proxyfix_obj (inner : val) : obj :=
  Obj "ProxyFix" (list_to_map [("app", inner); ("num_proxies", VInt 1)]) ∅.

Definition sockets_obj : obj := Obj "Sockets" ∅ ∅.

Definition middleware_obj (s : loc) (app inner : val) : obj :=
  Obj "SocketMiddleware"
      (list_to_map [("ws", VRef s); ("app", app); ("wsgi_app", inner)]) ∅.

(** A heap in which the application [a], its configuration [c] and its
    handler table [vf] sit on top of the objects of [hb]. *)
Definition heap_of (E : environment) (hb : gmap loc obj) (a c vf : loc)
    (w : option val) (cfg hs : gmap string val) : gmap loc obj :=
  <[vf := handlers_obj hs]> (<[c := config_obj E cfg]> (<[a := app_obj E c vf w]> hb)).

(** The module namespace after the three class imports. *)
Definition globals3 (E : environment) : gmap string val :=
  <["Sockets" := VClass "Sockets"]>
    (<["Flask" := VClass "Flask"]>
       (<["ProxyFix" := VClass "ProxyFix"]> (predefined E))).

(** ** The states the module body passes through *)

(** The six objects the module body creates: the application, its
    configuration, its handler table, the proxy middleware, the websocket
    extension and the websocket middleware. *)
Record refs := Refs {
  r_app : loc;
  r_config : loc;
  r_handlers : loc;
  r_proxy : loc;
  r_sockets : loc;
  r_middleware : loc
}.

Definition all_refs (r : refs) : list loc :=
  [r_app r; r_config r; r_handlers r; r_proxy r; r_sockets r; r_middleware r].

(** The six references are pairwise different and unused in [h0]. *)
Definition new_in (h0 : gmap loc obj) (r : refs) : Prop :=
  NoDup (all_refs r) ∧ ∀ l, l ∈ all_refs r → h0 !! l = None.

Definition with_proxy (h0 : gmap loc obj) (r : refs) : gmap loc obj :=
  <[r_proxy r := proxyfix_obj (VBound (r_app r) "wsgi_app")]> h0.

Definition with_sockets (h0 : gmap loc obj) (r : refs) : gmap loc obj :=
  <[r_middleware r := middleware_obj (r_sockets r) (VRef (r_app r)) (VRef (r_proxy r))]>
    (<[r_sockets r := sockets_obj]> (with_proxy h0 r)).

Definition globals6 (E : environment) (r : refs) : gmap string val :=
  <["app" := VRef (r_app r)]> (globals3 E).

Definition globals11 (E : environment) (r : refs) : gmap string val :=
  <["sockets" := VRef (r_sockets r)]>
    (<["SETTINGS" := VRef (r_config r)]> (globals6 E r)).

(** The namespace once the package [xai.txtconv] has been bound, and once
    the whole import statement has completed. *)
Definition globals12 (E : environment) (r : refs) : gmap string val :=
  <["txtconv" := VModule "xai.txtconv"]> (globals11 E r).

Definition globals13 (E : environment) (r : refs) : gmap string val :=
  <["xai" := VModule "xai"]> (globals12 E r).

(** The heap once the application exists (from line 6), once the proxy
    middleware exists (from line 7) and once the websocket objects exist
    (from line 11); [w], [cfg] and [hs] are the application's entry point,
    the configuration entries and the registered handlers at that time. *)
Definition heap6 (E : environment) (h0 : gmap loc obj) (r : refs)
    (w : option val) (cfg hs : gmap string val) : gmap loc obj :=
  heap_of E h0 (r_app r) (r_config r) (r_handlers r) w cfg hs.

Definition heap7 (E : environment) (h0 : gmap loc obj) (r : refs)
    (w : option val) (cfg hs : gmap string val) : gmap loc obj :=
  heap_of E (with_proxy h0 r) (r_app r) (r_config r) (r_handlers r) w cfg hs.

Definition heap11 (E : environment) (h0 : gmap loc obj) (r : refs)
    (w : option val) (cfg hs : gmap string val) : gmap loc obj :=
  heap_of E (with_sockets h0 r) (r_app r) (r_config r) (r_handlers r) w cfg hs.

(** After line 6. *)
Definition state6 (E : environment) (h0 : gmap loc obj) (r : refs) : state :=
  State (heap6 E h0 r None (default_config E) ∅)
        (globals6 E r) [EvFlask].

(** After line 7. *)
Definition state7 (E : environment) (h0 : gmap loc obj) (r : refs) : state :=
  State (heap7 E h0 r (Some (VRef (r_proxy r))) (default_config E) ∅)
        (globals6 E r) [EvFlask; EvProxyFix].

(** After line 8, when the settings file defines [kvs]. *)
Definition state8 (E : environment) (h0 : gmap loc obj) (r : refs)
    (kvs : list (string * val)) : state :=
  State (heap7 E h0 r (Some (VRef (r_proxy r)))
               (config_after E kvs) ∅)
        (globals6 E r) [EvFlask; EvProxyFix; EvFromPyfile (settings_file E)].

(** After line 9. *)
Definition state9 (E : environment) (h0 : gmap loc obj) (r : refs)
    (kvs : list (string * val)) : state :=
  State (heap (state8 E h0 r kvs))
        (<["SETTINGS" := VRef (r_config r)]> (globals6 E r))
        (trace (state8 E h0 r kvs)).

(** After line 11. *)
Definition state11 (E : environment) (h0 : gmap loc obj) (r : refs)
    (kvs : list (string * val)) : state :=
  State (heap11 E h0 r (Some (VRef (r_middleware r)))
                (config_after E kvs) ∅)
        (globals11 E r)
        [EvFlask; EvProxyFix; EvFromPyfile (settings_file E); EvSockets].

(** During line 13, when the package has been bound and the route module
    has registered [handlers]. *)
Definition state12 (E : environment) (h0 : gmap loc obj) (r : refs)
    (kvs handlers : list (string * val)) : state :=
  State (heap11 E h0 r (Some (VRef (r_middleware r)))
                (config_after E kvs) (store_all handlers ∅))
        (globals12 E r)
        (setup_order E).

(** After line 13, when the route module registers [handlers]. *)
Definition state13 (E : environment) (h0 : gmap loc obj) (r : refs)
    (kvs handlers : list (string * val)) : state :=
  State (heap11 E h0 r (Some (VRef (r_middleware r)))
                (config_after E kvs) (store_all handlers ∅))
        (globals13 E r)
        (setup_order E).

(** The state in which the import fails, given the state [st] before the
    failing call and the calls [t] made up to and including it. *)
Definition failed_at (st : state) (t : list event) : state :=
  State (heap st) (globals st) t.

(** ** Concrete deployments

    The package lies in [/srv/server/xai]; [/srv/server/settings.py]
    assigns [DEBUG] twice, [SECRET_KEY] once and the lower-case name
    [workers] once; the frameworks are installed; the route module
    registers one handler; one object is live before the import. *)
Definition demo_settings : list (string * val) :=
  [("DEBUG", VBool true); ("SECRET_KEY", VStr "dev");
   ("DEBUG", VBool false); ("workers", VInt 4)].

Definition demo_env : environment :=
  Environment ["srv"; "server"]
    (λ f, if decide (f = ["srv"; "server"; "settings.py"])
          then Defines demo_settings
          else Missing)
    {["DEBUG" := VBool false]}
    (λ _, true)
    [("file", VPath ["srv"; "server"; "xai"; "__init__.py"]); ("doc", VNone)]
    (LeafRuns [("index", VFunc "index")]).

Definition demo_heap : gmap loc obj :=
  {[ 1%positive := Obj "MongoClient" {["host" := VStr "localhost"]} ∅ ]}.

Definition demo_state : state := (import_xai demo_env demo_heap).2.

(** The same deployment without its settings file; with a route module
    that is not there; and with a Werkzeug that has no [contrib] package. *)
Definition no_settings_env : environment :=
  Environment (base_dir demo_env) (λ _, Missing) (other_defaults demo_env)
              (importable demo_env) (dunders demo_env) (route_module demo_env).

Definition no_routes_env : environment :=
  Environment (base_dir demo_env) (fs demo_env) (other_defaults demo_env)
              (importable demo_env) (dunders demo_env) LeafMissing.

Definition new_werkzeug_env : environment :=
  Environment (base_dir demo_env) (fs demo_env) (other_defaults demo_env)
              (λ m, bool_decide (m ≠ "werkzeug.contrib.fixers"))
              (dunders demo_env) (route_module demo_env).

(** * Proofs *)

(** ** Running the primitives *)

Lemma bind_inr {A B} (m : M A) (k : A → M B) st a st' :
  m st = (inr a, st') → bind m k st = k a st'.
Proof. intros H. unfold bind. by rewrite H. Qed.

Lemma bind_inl {A B} (m : M A) (k : A → M B) st e st' :
  m st = (inl e, st') → bind m k st = (inl e, st').
Proof. intros H. unfold bind. by rewrite H. Qed.

Lemma get_global_run h g t n v :
  g !! n = Some v → get_global n (State h g t) = (inr v, State h g t).
Proof. intros H. unfold get_global. cbn [globals]. by rewrite H. Qed.

Lemma getattr_run h g t l o n x :
  h !! l = Some o → attrs o !! n = Some x →
  getattr (VRef l) n (State h g t) = (inr x, State h g t).
Proof. intros H1 H2. unfold getattr. cbn [heap]. by rewrite H1, H2. Qed.

Lemma getattr_method_run h g t l o n :
  h !! l = Some o → attrs o !! n = None → class_method (cls o) n = true →
  getattr (VRef l) n (State h g t) = (inr (VBound l n), State h g t).
Proof. intros H1 H2 H3. unfold getattr. cbn [heap]. by rewrite H1, H2, H3. Qed.

Lemma setattr_run h g t l o n x :
  h !! l = Some o →
  setattr (VRef l) n x (State h g t)
  = (inr tt, State (<[l := Obj (cls o) (<[n := x]> (attrs o)) (items o)]> h) g t).
Proof. intros H. unfold setattr. cbn [heap globals trace]. by rewrite H. Qed.

Lemma update_items_run h g t l o kvs :
  h !! l = Some o →
  update_items (VRef l) kvs (State h g t)
  = (inr tt, State (<[l := Obj (cls o) (attrs o) (store_all kvs (items o))]> h) g t).
Proof. intros H. unfold update_items. cbn [heap globals trace]. by rewrite H. Qed.

Lemma fresh_None (h : gmap loc obj) : h !! fresh (dom h) = None.
Proof. apply not_elem_of_dom, is_fresh. Qed.

(** Equality of two heaps built by stores at pairwise distinct references. *)
Ltac heap_eq :=
  apply map_eq; intros ?;
  repeat (rewrite lookup_insert; case_decide; simplify_eq; try done).

Lemma alloc_ex o h g t :
  ∃ l, h !! l = None ∧ alloc o (State h g t) = (inr l, State (<[l := o]> h) g t).
Proof. exists (fresh (dom h)). split; [apply fresh_None | reflexivity]. Qed.

Lemma log_run e h g t : log e (State h g t) = (inr tt, State h g (t ++ [e])).
Proof. reflexivity. Qed.

Lemma set_global_run n v h g t :
  set_global n v (State h g t) = (inr tt, State h (<[n := v]> g) t).
Proof. reflexivity. Qed.

(** ** The module namespace *)

Ltac find_global :=
  repeat first [ apply lookup_insert_eq | rewrite lookup_insert_ne by done ].

(** The interpreter predefines only names that begin with an underscore. *)
Lemma predefined_plain E n : (∀ s, n ≠ String "_" s) → predefined E !! n = None.
Proof.
  intros Hn. unfold predefined.
  rewrite lookup_insert_ne by (intros <-; by eapply Hn).
  apply not_elem_of_list_to_map. rewrite <- list_fmap_compose.
  intros ([n' v] & -> & _)%list_elem_of_fmap. by eapply Hn.
Qed.

Lemma globals3_name E : globals3 E !! "__name__" = Some (VStr "xai").
Proof. unfold globals3, predefined. find_global. Qed.

Lemma globals3_Flask E : globals3 E !! "Flask" = Some (VClass "Flask").
Proof. unfold globals3. find_global. Qed.

Lemma globals3_ProxyFix E : globals3 E !! "ProxyFix" = Some (VClass "ProxyFix").
Proof. unfold globals3. find_global. Qed.

Lemma globals3_Sockets E : globals3 E !! "Sockets" = Some (VClass "Sockets").
Proof. unfold globals3. find_global. Qed.

(** A name that no statement binds is as the interpreter left it. *)
Lemma globals3_other E n :
  n ≠ "Sockets" → n ≠ "Flask" → n ≠ "ProxyFix" → globals3 E !! n = predefined E !! n.
Proof. intros. unfold globals3. by rewrite !lookup_insert_ne by congruence. Qed.

(** One step of a run: the first action of a sequence returns. *)
Ltac step tac :=
  etrans; [apply bind_inr; tac | cbv beta iota; cbn [cls attrs items]].

(** Facts about new references: each differs from the ones before it. *)
Ltac new_refs :=
  repeat match goal with
         | H : <[_ := _]> _ !! _ = None |- _ =>
             apply lookup_insert_None in H; destruct H
         end.

(** Looking a reference up in a heap built by stores. *)
Ltac find_obj :=
  repeat first [ apply lookup_insert_eq
               | rewrite lookup_insert_ne by congruence
               | eassumption ].

Lemma Flask_run E h g t :
  ∃ a c vf,
    Flask E "xai" "/static" "static" (State h g t)
    = (inr (VRef a), State (heap_of E h a c vf None (default_config E) ∅)
                           g (t ++ [EvFlask]))
    ∧ h !! a = None ∧ h !! c = None ∧ h !! vf = None
    ∧ a ≠ c ∧ a ≠ vf ∧ c ≠ vf.
Proof.
  unfold Flask.
  (* the three objects are allocated in the order a, c, vf *)
  epose proof (alloc_ex _ _ _ _) as Ea; destruct Ea as (a & Ha & Ea).
  epose proof (alloc_ex _ _ _ _) as Ec; destruct Ec as (c & Hc & Ec).
  epose proof (alloc_ex _ _ _ _) as Evf; destruct Evf as (vf & Hvf & Evf).
  exists a, c, vf. split.
  - step ltac:(apply log_run).
    step ltac:(exact Ea).
    step ltac:(exact Ec).
    step ltac:(apply setattr_run; new_refs; find_obj).
    step ltac:(exact Evf).
    step ltac:(apply setattr_run; new_refs; find_obj).
    new_refs.
    unfold ret, heap_of, app_obj, base_attrs, config_obj, handlers_obj, module_dir.
    do 2 f_equal. heap_eq.
  - new_refs. repeat split; congruence.
Qed.

Lemma ProxyFix_run w h g t :
  ∃ p, ProxyFix w (State h g t)
       = (inr (VRef p), State (<[p := proxyfix_obj w]> h) g (t ++ [EvProxyFix]))
     ∧ h !! p = None.
Proof.
  unfold ProxyFix.
  epose proof (alloc_ex _ _ _ _) as Ep; destruct Ep as (p & Hp & Ep).
  exists p. split; [|exact Hp].
  step ltac:(apply log_run). step ltac:(exact Ep). reflexivity.
Qed.

(** ** Lookups in the layout *)

Section Layout.
Context (E : environment) (hb : gmap loc obj) (a c vf : loc).
Context (w : option val) (cfg hs : gmap string val).
Hypothesis (Hac : a ≠ c) (Havf : a ≠ vf) (Hcvf : c ≠ vf).

Lemma heap_of_app : heap_of E hb a c vf w cfg hs !! a = Some (app_obj E c vf w).
Proof. unfold heap_of. find_obj. Qed.

Lemma heap_of_config : heap_of E hb a c vf w cfg hs !! c = Some (config_obj E cfg).
Proof. unfold heap_of. find_obj. Qed.

Lemma heap_of_handlers : heap_of E hb a c vf w cfg hs !! vf = Some (handlers_obj hs).
Proof. unfold heap_of. find_obj. Qed.

Lemma heap_of_other l :
  l ≠ a → l ≠ c → l ≠ vf → heap_of E hb a c vf w cfg hs !! l = hb !! l.
Proof. intros. unfold heap_of. by rewrite !lookup_insert_ne by congruence. Qed.

Lemma app_attr_config : attrs (app_obj E c vf w) !! "config" = Some (VRef c).
Proof. destruct w; by vm_compute. Qed.

Lemma app_attr_handlers : attrs (app_obj E c vf w) !! "view_functions" = Some (VRef vf).
Proof. destruct w; by vm_compute. Qed.

Lemma app_attr_wsgi : attrs (app_obj E c vf w) !! "wsgi_app" = w.
Proof. destruct w; by vm_compute. Qed.

Lemma app_attr_static_url :
  attrs (app_obj E c vf w) !! "static_url_path" = Some (VStr "/static").
Proof. destruct w; by vm_compute. Qed.

Lemma app_attr_static_folder :
  attrs (app_obj E c vf w) !! "static_folder" = Some (VStr "static").
Proof. destruct w; by vm_compute. Qed.

Lemma app_attr_root :
  attrs (app_obj E c vf w) !! "root_path" = Some (VPath (module_dir E)).
Proof. destruct w; by vm_compute. Qed.

Lemma config_attr_root :
  attrs (config_obj E cfg) !! "root_path" = Some (VPath (module_dir E)).
Proof. by vm_compute. Qed.
End Layout.

(** ** The settings file *)

Lemma split_settings : split_on "/"%char "../settings.py" "" = [".."; "settings.py"].
Proof. reflexivity. Qed.

Lemma resolve_settings E : resolve (module_dir E) "../settings.py" = settings_file E.
Proof.
  unfold resolve. rewrite split_settings. cbn [foldl]. unfold enter.
  repeat case_decide; done.
Qed.

Lemma settings_file_base E : settings_file E = (base_dir E ++ ["settings.py"])%list.
Proof.
  unfold settings_file, parent, module_dir, get_root_path.
  by rewrite removelast_last.
Qed.

(** ** Running the statements *)

Section Lines.
Context (E : environment) (hb : gmap loc obj) (a c vf : loc).
Context (cfg hs : gmap string val) (g : gmap string val) (t : list event).
Hypothesis (Hac : a ≠ c) (Havf : a ≠ vf) (Hcvf : c ≠ vf).
Hypothesis (Hg : g !! "app" = Some (VRef a)).
Hypothesis (HgP : g !! "ProxyFix" = Some (VClass "ProxyFix")).
Hypothesis (HgS : g !! "Sockets" = Some (VClass "Sockets")).

Lemma line7_run :
  ∃ p, line7 E (State (heap_of E hb a c vf None cfg hs) g t)
       = (inr tt,
          State (heap_of E (<[p := proxyfix_obj (VBound a "wsgi_app")]> hb)
                         a c vf (Some (VRef p)) cfg hs)
                g (t ++ [EvProxyFix]))
     ∧ hb !! p = None ∧ p ≠ a ∧ p ≠ c ∧ p ≠ vf.
Proof.
  unfold line7.
  epose proof (ProxyFix_run _ _ _ _) as Ep; destruct Ep as (p & Ep & Hp).
  exists p. split.
  - step ltac:(by apply get_global_run).
    step ltac:(by apply get_global_run).
    step ltac:(eapply getattr_method_run;
                 [by apply heap_of_app | by apply app_attr_wsgi | done]).
    step ltac:(exact Ep).
    step ltac:(by apply get_global_run).
    etrans; [apply setattr_run; rewrite lookup_insert_ne; [by apply heap_of_app|] |].
    { intros ->. by rewrite heap_of_app in Hp. }
    cbn [cls attrs items]. unfold heap_of in *. new_refs.
    do 2 f_equal. unfold app_obj. heap_eq.
  - unfold heap_of in Hp. new_refs. repeat split; congruence.
Qed.

Lemma line8_run w :
  line8 E (State (heap_of E hb a c vf w cfg hs) g t)
  = match fs E (settings_file E) with
    | Defines kvs =>
        (inr tt, State (heap_of E hb a c vf w (store_all (settings_of kvs) cfg) hs) g
                       (t ++ [EvFromPyfile (settings_file E)]))
    | Missing =>
        (inl (IOError (settings_file E)),
         State (heap_of E hb a c vf w cfg hs) g
               (t ++ [EvFromPyfile (settings_file E)]))
    | Invalid =>
        (inl (ExecError (settings_file E)),
         State (heap_of E hb a c vf w cfg hs) g
               (t ++ [EvFromPyfile (settings_file E)]))
    end.
Proof.
  unfold line8.
  step ltac:(by apply get_global_run).
  step ltac:(eapply getattr_run; [by apply heap_of_app | by apply app_attr_config]).
  unfold from_pyfile.
  step ltac:(eapply getattr_run; [by apply heap_of_config | apply config_attr_root]).
  cbv zeta.
  rewrite resolve_settings.
  step ltac:(apply log_run).
  destruct (fs E (settings_file E)) as [| |kvs]; try reflexivity.
  etrans; [apply update_items_run; by apply heap_of_config|].
  cbn [cls attrs items]. do 2 f_equal. unfold heap_of. heap_eq.
Qed.

Lemma line9_run w :
  line9 (State (heap_of E hb a c vf w cfg hs) g t)
  = (inr tt, State (heap_of E hb a c vf w cfg hs) (<["SETTINGS" := VRef c]> g) t).
Proof.
  unfold line9.
  step ltac:(by apply get_global_run).
  step ltac:(eapply getattr_run; [by apply heap_of_app | by apply app_attr_config]).
  reflexivity.
Qed.

Lemma line11_run v :
  ∃ s m, line11 E (State (heap_of E hb a c vf (Some v) cfg hs) g t)
         = (inr tt,
            State (heap_of E (<[m := middleware_obj s (VRef a) v]>
                                (<[s := sockets_obj]> hb))
                           a c vf (Some (VRef m)) cfg hs)
                  (<["sockets" := VRef s]> g) (t ++ [EvSockets]))
       ∧ hb !! s = None ∧ hb !! m = None ∧ s ≠ m
       ∧ s ≠ a ∧ s ≠ c ∧ s ≠ vf ∧ m ≠ a ∧ m ≠ c ∧ m ≠ vf.
Proof.
  unfold line11, Sockets.
  epose proof (alloc_ex _ _ _ _) as Es; destruct Es as (s & Hs & Es).
  epose proof (alloc_ex _ _ _ _) as Em; destruct Em as (m & Hm & Em).
  exists s, m. split.
  - step ltac:(by apply get_global_run).
    step ltac:(by apply get_global_run).
    etrans; [apply bind_inr|].
    { step ltac:(apply log_run).
      step ltac:(exact Es).
      unfold heap_of in *. new_refs.
      step ltac:(eapply getattr_run; [find_obj | by apply app_attr_wsgi]).
      step ltac:(exact Em).
      step ltac:(eapply setattr_run; new_refs; find_obj).
      reflexivity. }
    cbv beta. rewrite set_global_run. unfold heap_of in *. new_refs.
    do 2 f_equal. unfold app_obj. cbn [cls attrs items].
    rewrite insert_insert_eq. heap_eq.
  - unfold heap_of in *. new_refs. repeat split; congruence.
Qed.

Lemma register_run w handlers g' t' :
  g' !! "app" = Some (VRef a) →
  register handlers (State (heap_of E hb a c vf w cfg hs) g' t')
  = (inr tt, State (heap_of E hb a c vf w cfg (store_all handlers hs)) g' t').
Proof.
  intros Hg'. unfold register.
  step ltac:(by apply get_global_run).
  step ltac:(eapply getattr_run; [by apply heap_of_app | by apply app_attr_handlers]).
  etrans; [apply update_items_run; by apply heap_of_handlers|].
  cbn [cls attrs items]. do 2 f_equal. unfold heap_of. heap_eq.
Qed.

Lemma line13_run w :
  line13 E (State (heap_of E hb a c vf w cfg hs) g t)
  = match route_module E with
    | PackageMissing =>
        (inl (ImportError "xai.txtconv"),
         State (heap_of E hb a c vf w cfg hs) g (t ++ [EvImportRoute]))
    | LeafMissing =>
        (inl (ImportError "xai.txtconv.route"),
         State (heap_of E hb a c vf w cfg hs)
               (<["txtconv" := VModule "xai.txtconv"]> g) (t ++ [EvImportRoute]))
    | LeafRaises handlers e =>
        (inl e,
         State (heap_of E hb a c vf w cfg (store_all handlers hs))
               (<["txtconv" := VModule "xai.txtconv"]> g) (t ++ [EvImportRoute]))
    | LeafRuns handlers =>
        (inr tt,
         State (heap_of E hb a c vf w cfg (store_all handlers hs))
               (<["xai" := VModule "xai"]> (<["txtconv" := VModule "xai.txtconv"]> g))
               (t ++ [EvImportRoute]))
    end.
Proof.
  assert (Hg' : (<["txtconv" := VModule "xai.txtconv"]> g) !! "app" = Some (VRef a))
    by (by rewrite lookup_insert_ne).
  unfold line13, import_route.
  step ltac:(apply log_run).
  destruct (route_module E) as [| |handlers e|handlers]; [reflexivity| | |].
  - step ltac:(apply set_global_run). reflexivity.
  - step ltac:(apply set_global_run).
    step ltac:(by apply register_run). reflexivity.
  - step ltac:(apply set_global_run).
    step ltac:(by apply register_run). reflexivity.
Qed.
End Lines.

(** ** The whole module body *)

Lemma frameworks_ok_elim E :
  frameworks_ok E = true →
  importable E "werkzeug.contrib.fixers" = true
  ∧ importable E "flask" = true ∧ importable E "flask_sockets" = true.
Proof. unfold frameworks_ok. rewrite !andb_true_iff. tauto. Qed.

Lemma imports_run E h t :
  frameworks_ok E = true →
  imports E (State h (predefined E) t) = (inr tt, State h (globals3 E) t).
Proof.
  intros (H1 & H2 & H3)%frameworks_ok_elim.
  unfold imports, import_from. by rewrite H1, H2, H3.
Qed.

(** Without one of the frameworks the import stops in lines 1 to 3, before
    any call is made. *)
Lemma imports_fail E h t :
  frameworks_ok E = false →
  ∃ m st, imports E (State h (predefined E) t) = (inl (ImportError m), st)
          ∧ heap st = h ∧ trace st = t ∧ globals st !! "app" = None.
Proof.
  assert (Happ : ∀ s, "app" ≠ String "_" s) by (by intros s [=]).
  unfold frameworks_ok, imports, import_from. intros Hno.
  destruct (importable E "werkzeug.contrib.fixers").
  - destruct (importable E "flask").
    + destruct (importable E "flask_sockets"); [done|].
      eexists _, _. split; [reflexivity|]. cbn [heap trace globals].
      split_and!; [done..|].
      rewrite !lookup_insert_ne by done. by apply predefined_plain.
    + eexists _, _. split; [reflexivity|]. cbn [heap trace globals].
      split_and!; [done..|].
      rewrite !lookup_insert_ne by done. by apply predefined_plain.
  - eexists _, _. split; [reflexivity|]. cbn [heap trace globals].
    split_and!; [done..|]. by apply predefined_plain.
Qed.

Lemma import_without_frameworks E h0 :
  frameworks_ok E = false →
  ∃ m st', import_xai E h0 = (inl (ImportError m), st')
           ∧ heap st' = h0 ∧ trace st' = [] ∧ globals st' !! "app" = None.
Proof.
  intros Hno. destruct (imports_fail E h0 [] Hno) as (m & st & Hrun & Hst).
  exists m, st. split; [|exact Hst].
  unfold import_xai, module_body, setup, through9, through8, through7, through6.
  by do 6 apply bind_inl.
Qed.

Lemma line6_run E h t :
  ∃ a c vf,
    line6 E (State h (globals3 E) t)
    = (inr tt, State (heap_of E h a c vf None (default_config E) ∅)
                     (<["app" := VRef a]> (globals3 E)) (t ++ [EvFlask]))
    ∧ h !! a = None ∧ h !! c = None ∧ h !! vf = None
    ∧ a ≠ c ∧ a ≠ vf ∧ c ≠ vf.
Proof.
  destruct (Flask_run E h (globals3 E) t) as (a & c & vf & Er & Hfresh).
  exists a, c, vf. split; [|exact Hfresh].
  unfold line6.
  step ltac:(apply get_global_run, globals3_Flask).
  step ltac:(apply get_global_run, globals3_name).
  step ltac:(exact Er). reflexivity.
Qed.

Lemma new_in_intro h0 a c vf p s m :
  h0 !! a = None → h0 !! c = None → h0 !! vf = None → h0 !! p = None →
  h0 !! s = None → h0 !! m = None →
  a ≠ c → a ≠ vf → c ≠ vf → p ≠ a → p ≠ c → p ≠ vf →
  s ≠ a → s ≠ c → s ≠ vf → s ≠ p → m ≠ a → m ≠ c → m ≠ vf → m ≠ p → s ≠ m →
  new_in h0 (Refs a c vf p s m).
Proof.
  intros. split.
  - unfold all_refs; cbn.
    repeat (apply NoDup_cons; split;
            [rewrite ?not_elem_of_cons; repeat split;
             first [congruence | apply not_elem_of_nil]|]).
    apply NoDup_nil_2.
  - unfold all_refs; cbn. intros l Hl.
    repeat (apply elem_of_cons in Hl as [->|Hl]; [done|]).
    by apply elem_of_nil in Hl.
Qed.

(** Every run of the body with the frameworks present, by what the
    settings file and the route module are. *)
Lemma run_cases E h0 :
  frameworks_ok E = true →
  ∃ r, new_in h0 r
    ∧ through6 E (initial E h0) = (inr tt, state6 E h0 r)
    ∧ through7 E (initial E h0) = (inr tt, state7 E h0 r)
    ∧ match fs E (settings_file E) with
      | Defines kvs =>
          through8 E (initial E h0) = (inr tt, state8 E h0 r kvs)
          ∧ through9 E (initial E h0) = (inr tt, state9 E h0 r kvs)
          ∧ setup E (initial E h0) = (inr tt, state11 E h0 r kvs)
          ∧ match route_module E with
            | PackageMissing =>
                import_xai E h0
                = (inl (ImportError "xai.txtconv"),
                   failed_at (state11 E h0 r kvs) (setup_order E))
            | LeafMissing =>
                import_xai E h0
                = (inl (ImportError "xai.txtconv.route"), state12 E h0 r kvs [])
            | LeafRaises handlers e =>
                import_xai E h0 = (inl e, state12 E h0 r kvs handlers)
            | LeafRuns handlers =>
                import_xai E h0 = (inr tt, state13 E h0 r kvs handlers)
            end
      | Missing =>
          import_xai E h0
          = (inl (IOError (settings_file E)),
             failed_at (state7 E h0 r)
                       [EvFlask; EvProxyFix; EvFromPyfile (settings_file E)])
      | Invalid =>
          import_xai E h0
          = (inl (ExecError (settings_file E)),
             failed_at (state7 E h0 r)
                       [EvFlask; EvProxyFix; EvFromPyfile (settings_file E)])
      end.
Proof.
  intros Hfw.
  destruct (line6_run E h0 []) as (a & c & vf & E6 & Ha & Hc & Hvf & Hac & Havf & Hcvf).
  set (g6 := <["app" := VRef a]> (globals3 E)) in *.
  assert (Hg : g6 !! "app" = Some (VRef a)) by apply lookup_insert_eq.
  assert (HgP : g6 !! "ProxyFix" = Some (VClass "ProxyFix")).
  { subst g6. rewrite lookup_insert_ne by done. apply globals3_ProxyFix. }
  assert (HgS : g6 !! "Sockets" = Some (VClass "Sockets")).
  { subst g6. rewrite lookup_insert_ne by done. apply globals3_Sockets. }
  destruct (line7_run E h0 a c vf (default_config E) ∅ g6 ([] ++ [EvFlask])
              Hac Havf Hcvf Hg HgP)
    as (p & E7 & Hp & Hpa & Hpc & Hpvf).
  set (hp := <[p := proxyfix_obj (VBound a "wsgi_app")]> h0) in *.
  assert (H6 : through6 E (initial E h0)
               = (inr tt, State (heap_of E h0 a c vf None (default_config E) ∅)
                                g6 [EvFlask])).
  { unfold through6, initial. step ltac:(by apply imports_run). exact E6. }
  assert (H7 : through7 E (initial E h0)
               = (inr tt, State (heap_of E hp a c vf (Some (VRef p)) (default_config E) ∅)
                                g6 [EvFlask; EvProxyFix])).
  { unfold through7. step ltac:(exact H6). exact E7. }
  clear E6 E7.
  assert (E8 := line8_run E hp a c vf (default_config E) ∅ g6 [EvFlask; EvProxyFix]
                  Hac Havf Hcvf Hg (Some (VRef p))).
  (* the websocket objects, on top of any configuration contents *)
  assert (E11 : ∀ cfg g t,
            g !! "app" = Some (VRef a) → g !! "Sockets" = Some (VClass "Sockets") →
            ∃ s m, line11 E (State (heap_of E hp a c vf (Some (VRef p)) cfg ∅) g t)
                   = (inr tt,
                      State (heap_of E (<[m := middleware_obj s (VRef a) (VRef p)]>
                                          (<[s := sockets_obj]> hp))
                                     a c vf (Some (VRef m)) cfg ∅)
                            (<["sockets" := VRef s]> g) (t ++ [EvSockets]))
                 ∧ new_in h0 (Refs a c vf p s m)).
  { intros cfg g t Hga Hgs.
    destruct (line11_run E hp a c vf cfg ∅ g t Hac Havf Hcvf Hga Hgs (VRef p))
      as (s & m & Er & Hs & Hm & Hsm & ? & ? & ? & ? & ? & ?).
    exists s, m. split; [exact Er|]. subst hp. new_refs.
    apply new_in_intro; congruence. }
  destruct (fs E (settings_file E)) as [| |kvs] eqn:Hfs.
  - (* the settings file is missing *)
    destruct (E11 (default_config E) _ [] Hg HgS) as (s & m & _ & Hnew).
    exists (Refs a c vf p s m). split_and!; [exact Hnew | exact H6 | exact H7 |].
    unfold import_xai, module_body, setup, through9. do 3 apply bind_inl.
    unfold through8. step ltac:(exact H7). exact E8.
  - (* the settings file cannot be executed *)
    destruct (E11 (default_config E) _ [] Hg HgS) as (s & m & _ & Hnew).
    exists (Refs a c vf p s m). split_and!; [exact Hnew | exact H6 | exact H7 |].
    unfold import_xai, module_body, setup, through9. do 3 apply bind_inl.
    unfold through8. step ltac:(exact H7). exact E8.
  - (* the settings file assigns [kvs] *)
    assert (H8 : through8 E (initial E h0)
                 = (inr tt, State (heap_of E hp a c vf (Some (VRef p)) (config_after E kvs) ∅)
                                  g6 [EvFlask; EvProxyFix; EvFromPyfile (settings_file E)])).
    { unfold through8. step ltac:(exact H7). exact E8. }
    set (g9 := <["SETTINGS" := VRef c]> g6) in *.
    assert (Hg9 : g9 !! "app" = Some (VRef a)) by (subst g9; by rewrite lookup_insert_ne).
    assert (Hg9S : g9 !! "Sockets" = Some (VClass "Sockets"))
      by (subst g9; by rewrite lookup_insert_ne).
    destruct (E11 (config_after E kvs) g9
                [EvFlask; EvProxyFix; EvFromPyfile (settings_file E)] Hg9 Hg9S)
      as (s & m & E11' & Hnew).
    assert (H9 : through9 E (initial E h0) = (inr tt, state9 E h0 (Refs a c vf p s m) kvs)).
    { unfold through9. step ltac:(exact H8). apply line9_run; done. }
    assert (H11 : setup E (initial E h0) = (inr tt, state11 E h0 (Refs a c vf p s m) kvs)).
    { unfold setup. step ltac:(exact H9). exact E11'. }
    exists (Refs a c vf p s m).
    split_and!; [exact Hnew | exact H6 | exact H7 | exact H8 | exact H9 | exact H11 |].
    assert (Hg11 : globals11 E (Refs a c vf p s m) !! "app" = Some (VRef a)).
    { unfold globals11, globals6; cbn [r_app r_sockets r_config].
      rewrite !lookup_insert_ne by done. exact Hg. }
    assert (E13 := line13_run E (with_sockets h0 (Refs a c vf p s m)) a c vf
                     (config_after E kvs) ∅ _
                     [EvFlask; EvProxyFix; EvFromPyfile (settings_file E); EvSockets]
                     Hac Havf Hcvf Hg11 (Some (VRef m))).
    unfold import_xai, module_body.
    destruct (route_module E) as [| |handlers e|handlers];
      (etrans; [apply bind_inr; exact H11 | exact E13]).
Qed.

(** A successful import went through every intermediate state. *)
Lemma import_inv E h0 st' :
  import_xai E h0 = (inr tt, st') →
  ∃ r kvs handlers,
    new_in h0 r
    ∧ frameworks_ok E = true
    ∧ fs E (settings_file E) = Defines kvs
    ∧ route_module E = LeafRuns handlers
    ∧ st' = state13 E h0 r kvs handlers
    ∧ through6 E (initial E h0) = (inr tt, state6 E h0 r)
    ∧ through7 E (initial E h0) = (inr tt, state7 E h0 r)
    ∧ through8 E (initial E h0) = (inr tt, state8 E h0 r kvs)
    ∧ through9 E (initial E h0) = (inr tt, state9 E h0 r kvs)
    ∧ setup E (initial E h0) = (inr tt, state11 E h0 r kvs).
Proof.
  intros Hrun.
  destruct (frameworks_ok E) eqn:Hfw; last first.
  { destruct (import_without_frameworks E h0 Hfw) as (m & st & Hfail & _). congruence. }
  destruct (run_cases E h0 Hfw) as (r & Hnew & H6 & H7 & Hcases).
  destruct (fs E (settings_file E)) as [| |kvs]; [congruence | congruence |].
  destruct Hcases as (H8 & H9 & H11 & H13).
  destruct (route_module E) as [| |handlers e|handlers]; [congruence..|].
  exists r, kvs, handlers. split_and!; try done. congruence.
Qed.

(** ** The six new objects *)

Lemma new_in_elim h0 a c vf p s m :
  new_in h0 (Refs a c vf p s m) →
  (a ≠ c ∧ a ≠ vf ∧ a ≠ p ∧ a ≠ s ∧ a ≠ m ∧ c ≠ vf ∧ c ≠ p ∧ c ≠ s ∧ c ≠ m
   ∧ vf ≠ p ∧ vf ≠ s ∧ vf ≠ m ∧ p ≠ s ∧ p ≠ m ∧ s ≠ m)
  ∧ (h0 !! a = None ∧ h0 !! c = None ∧ h0 !! vf = None
     ∧ h0 !! p = None ∧ h0 !! s = None ∧ h0 !! m = None).
Proof.
  intros [Hnd Hn]. unfold all_refs in *. cbn in *. split.
  - repeat (apply NoDup_cons in Hnd as [? Hnd]).
    repeat match goal with
           | H : _ ∉ _ :: _ |- _ => apply not_elem_of_cons in H as [? H]
           end.
    split_and!; congruence.
  - split_and!; apply Hn; repeat constructor.
Qed.

(** Names the six references and records that they are distinct and new. *)
Ltac name_refs r Hnew :=
  let a := fresh "a" in let c := fresh "c" in let vf := fresh "vf" in
  let p := fresh "p" in let s := fresh "s" in let m := fresh "m" in
  destruct r as [a c vf p s m];
  let H := fresh "Hd" in
  pose proof (new_in_elim _ _ _ _ _ _ _ Hnew) as H;
  destruct H as [(?&?&?&?&?&?&?&?&?&?&?&?&?&?&?) (?&?&?&?&?&?)];
  cbn [r_app r_config r_handlers r_proxy r_sockets r_middleware] in *.

Section FinalHeap.
Context (E : environment) (h0 : gmap loc obj) (r : refs).
Context (w : option val) (cfg hs : gmap string val).
Hypothesis Hnew : new_in h0 r.

Lemma layout_app :
  heap6 E h0 r w cfg hs !! r_app r = Some (app_obj E (r_config r) (r_handlers r) w)
  ∧ heap7 E h0 r w cfg hs !! r_app r = Some (app_obj E (r_config r) (r_handlers r) w)
  ∧ heap11 E h0 r w cfg hs !! r_app r = Some (app_obj E (r_config r) (r_handlers r) w).
Proof.
  unfold heap6, heap7, heap11. name_refs r Hnew. split_and!; by apply heap_of_app.
Qed.

Lemma layout_config :
  heap6 E h0 r w cfg hs !! r_config r = Some (config_obj E cfg)
  ∧ heap7 E h0 r w cfg hs !! r_config r = Some (config_obj E cfg)
  ∧ heap11 E h0 r w cfg hs !! r_config r = Some (config_obj E cfg).
Proof.
  unfold heap6, heap7, heap11. name_refs r Hnew. split_and!; by apply heap_of_config.
Qed.

Lemma layout_handlers :
  heap11 E h0 r w cfg hs !! r_handlers r = Some (handlers_obj hs).
Proof. unfold heap11. name_refs r Hnew. by apply heap_of_handlers. Qed.

Lemma layout_proxy :
  heap7 E h0 r w cfg hs !! r_proxy r
  = Some (proxyfix_obj (VBound (r_app r) "wsgi_app"))
  ∧ heap11 E h0 r w cfg hs !! r_proxy r
    = Some (proxyfix_obj (VBound (r_app r) "wsgi_app")).
Proof.
  unfold heap7, heap11. name_refs r Hnew.
  split; (rewrite heap_of_other by congruence);
    unfold with_sockets, with_proxy; cbn; find_obj.
Qed.

Lemma layout_sockets : heap11 E h0 r w cfg hs !! r_sockets r = Some sockets_obj.
Proof.
  unfold heap11. name_refs r Hnew. rewrite heap_of_other by congruence.
  unfold with_sockets, with_proxy; cbn. find_obj.
Qed.

Lemma layout_middleware :
  heap11 E h0 r w cfg hs !! r_middleware r
  = Some (middleware_obj (r_sockets r) (VRef (r_app r)) (VRef (r_proxy r))).
Proof.
  unfold heap11. name_refs r Hnew. rewrite heap_of_other by congruence.
  unfold with_sockets, with_proxy; cbn. find_obj.
Qed.

(** Objects that were live before the import are left as they were. *)
Lemma layout_frame l : l ∉ all_refs r → heap11 E h0 r w cfg hs !! l = h0 !! l.
Proof.
  unfold heap11. intros Hl. name_refs r Hnew. unfold all_refs in Hl. cbn in Hl.
  repeat (apply not_elem_of_cons in Hl as [? Hl]).
  rewrite heap_of_other by congruence.
  unfold with_sockets, with_proxy; cbn.
  by rewrite !lookup_insert_ne by congruence.
Qed.
End FinalHeap.

(** ** Statements about the imported module *)

Lemma globals13_app E r : globals13 E r !! "app" = Some (VRef (r_app r)).
Proof. unfold globals13, globals12, globals11, globals6. find_global. Qed.

Lemma globals13_SETTINGS E r :
  globals13 E r !! "SETTINGS" = Some (VRef (r_config r)).
Proof. unfold globals13, globals12, globals11, globals6. find_global. Qed.

Lemma globals13_sockets E r :
  globals13 E r !! "sockets" = Some (VRef (r_sockets r)).
Proof. unfold globals13, globals12, globals11, globals6. find_global. Qed.

Lemma resolve_static E : resolve (module_dir E) "static" = (module_dir E ++ ["static"])%list.
Proof. reflexivity. Qed.

(** C2: after the import, the global [app] is a Flask application object
    created by the import, configured with static URL prefix [/static] and
    static folder [static], which is the directory [static] inside the
    directory of the application module. *)
Theorem app_static_configuration E h0 st' :
  import_xai E h0 = (inr tt, st') →
  ∃ a, globals st' !! "app" = Some (VRef a)
     ∧ h0 !! a = None
     ∧ class_of st' a = Some "Flask"
     ∧ attr_of st' a "static_url_path" = Some (VStr "/static")
     ∧ attr_of st' a "static_folder" = Some (VStr "static")
     ∧ static_dir st' a = Some (module_dir E ++ ["static"])%list.
Proof.
  intros Hrun.
  destruct (import_inv _ _ _ Hrun) as (r & kvs & hs & Hnew & _ & _ & _ & -> & _).
  exists (r_app r).
  destruct (layout_app E h0 r (Some (VRef (r_middleware r)))
              (config_after E kvs) (store_all hs ∅) Hnew) as (_ & _ & Ha).
  unfold static_dir, class_of, attr_of, state13. cbn [heap globals].
  rewrite Ha. cbn [fmap option_fmap option_map mbind option_bind cls].
  rewrite app_attr_static_url, app_attr_static_folder, app_attr_root, resolve_static.
  split_and!; try done; try apply globals13_app.
  destruct Hnew as [_ Hn]. apply Hn. unfold all_refs. repeat constructor.
Qed.

Lemma app_static_configuration_witness :
  ∃ a, globals demo_state !! "app" = Some (VRef a)
     ∧ demo_heap !! a = None
     ∧ class_of demo_state a = Some "Flask"
     ∧ attr_of demo_state a "static_url_path" = Some (VStr "/static")
     ∧ attr_of demo_state a "static_folder" = Some (VStr "static")
     ∧ static_dir demo_state a = Some ["srv"; "server"; "xai"; "static"].
Proof.
  apply (app_static_configuration demo_env demo_heap demo_state).
  vm_compute. reflexivity.
Defined.

(** ** The configuration entries *)

Lemma store_all_lookup kvs (d : gmap string val) k :
  store_all kvs d !! k
  = match assigned kvs k with Some v => Some v | None => d !! k end.
Proof.
  revert d. induction kvs as [|[k' v] rest IH]; intros d; [done|].
  change (store_all ((k', v) :: rest) d) with (store_all rest (<[k' := v]> d)).
  rewrite IH. cbn [assigned].
  destruct (assigned rest k); [done|].
  rewrite lookup_insert. by destruct (decide (k' = k)).
Qed.

(** The loader sees the last assignment of an upper-case name and nothing
    of the other names. *)
Lemma assigned_settings kvs k :
  assigned (settings_of kvs) k = if isupper k then assigned kvs k else None.
Proof.
  induction kvs as [|[k' v] rest IH]; [by destruct (isupper k)|].
  unfold settings_of in *. cbn [List.filter fst assigned].
  destruct (isupper k') eqn:Hk'; cbn [assigned]; rewrite IH.
  - destruct (isupper k) eqn:Hk; [done|].
    destruct (decide (k' = k)) as [->|]; [congruence|done].
  - destruct (isupper k) eqn:Hk; [|done].
    destruct (assigned rest k); [done|].
    destruct (decide (k' = k)) as [->|]; [congruence|done].
Qed.

Lemma config_after_lookup E kvs k :
  config_after E kvs !! k
  = match (if isupper k then assigned kvs k else None) with
    | Some v => Some v
    | None => default_config E !! k
    end.
Proof. unfold config_after. by rewrite store_all_lookup, assigned_settings. Qed.

Lemma default_config_TESTING E : default_config E !! "TESTING" = Some (VBool false).
Proof. apply lookup_insert_eq. Qed.

Lemma load_event_order E f :
  EvFromPyfile f ∈ setup_order E ↔ f = settings_file E.
Proof.
  unfold setup_order. rewrite !elem_of_cons, elem_of_nil. split.
  - intros [?|[?|[?|[?|[?|[]]]]]]; congruence.
  - intros ->. auto.
Qed.

(** The items of the configuration object after a successful import. *)
Lemma imported_items E h0 r kvs hs k :
  new_in h0 r →
  item_of (state13 E h0 r kvs hs) (r_config r) k = config_after E kvs !! k.
Proof.
  intros Hnew.
  destruct (layout_config E h0 r (Some (VRef (r_middleware r)))
              (config_after E kvs) (store_all hs ∅) Hnew) as (_ & _ & Hc).
  unfold item_of, state13. cbn [heap]. by rewrite Hc.
Qed.

(** C1, as amended: during the import the configuration is loaded from
    exactly one file, [settings.py] in the directory above the module's
    directory; every upper-case name that file assigns is, with the value
    last assigned to it, an entry of the mapping bound to [SETTINGS], which
    is the application's configuration; a name that is not upper case is
    not taken over, its key keeps the framework default. *)
Theorem upper_case_settings_loaded E h0 st' :
  import_xai E h0 = (inr tt, st') →
  module_dir E = (base_dir E ++ ["xai"])%list
  ∧ settings_file E = (base_dir E ++ ["settings.py"])%list
  ∧ (∀ f, EvFromPyfile f ∈ trace st' ↔ f = settings_file E)
  ∧ ∃ kvs a c,
      fs E (settings_file E) = Defines kvs
      ∧ globals st' !! "app" = Some (VRef a)
      ∧ attr_of st' a "config" = Some (VRef c)
      ∧ globals st' !! "SETTINGS" = Some (VRef c)
      ∧ (∀ k v, isupper k = true → assigned kvs k = Some v →
                item_of st' c k = Some v)
      ∧ (∀ k, isupper k = false → item_of st' c k = default_config E !! k).
Proof.
  intros Hrun.
  destruct (import_inv _ _ _ Hrun) as (r & kvs & hs & Hnew & _ & Hfs & _ & -> & _).
  split; [done|]. split; [apply settings_file_base|].
  split; [intros f; apply load_event_order|].
  exists kvs, (r_app r), (r_config r).
  destruct (layout_app E h0 r (Some (VRef (r_middleware r)))
              (config_after E kvs) (store_all hs ∅) Hnew) as (_ & _ & Ha).
  split; [done|]. split; [apply globals13_app|].
  split. { unfold attr_of, state13. cbn [heap]. rewrite Ha. apply app_attr_config. }
  split; [apply globals13_SETTINGS|].
  split.
  - intros k v Hup Hk. by rewrite imported_items, config_after_lookup, Hup, Hk.
  - intros k Hup. by rewrite imported_items, config_after_lookup, Hup.
Qed.

Lemma upper_case_settings_loaded_witness :
  settings_file demo_env = ["srv"; "server"; "settings.py"]
  ∧ ∃ c, globals demo_state !! "SETTINGS" = Some (VRef c)
       ∧ item_of demo_state c "DEBUG" = Some (VBool false)
       ∧ item_of demo_state c "SECRET_KEY" = Some (VStr "dev")
       ∧ item_of demo_state c "workers" = None.
Proof.
  destruct (upper_case_settings_loaded demo_env demo_heap demo_state)
    as (_ & Hfile & _ & kvs & a & c & Hfs & _ & _ & Hs & Hup & Hlow).
  { vm_compute. reflexivity. }
  split; [exact Hfile|].
  exists c. split; [exact Hs|].
  rewrite Hfile in Hfs. vm_compute in Hfs. injection Hfs as <-.
  split; [by apply Hup|]. split; [by apply Hup|].
  rewrite Hlow by reflexivity. reflexivity.
Defined.

(** C1 as first stated fails: in the deployment [demo_env] the settings
    file assigns [workers], and [workers] is not an entry of [SETTINGS]. *)
Lemma lower_case_setting_is_dropped :
  ¬ ∀ kvs c k v,
      fs demo_env (settings_file demo_env) = Defines kvs →
      globals demo_state !! "SETTINGS" = Some (VRef c) →
      assigned kvs k = Some v →
      item_of demo_state c k = Some v.
Proof.
  intros Hall.
  assert (H : item_of demo_state 3%positive "workers" = Some (VInt 4)).
  { apply (Hall demo_settings); vm_compute; reflexivity. }
  vm_compute in H. discriminate H.
Qed.

(** C8: after the import the mapping bound to [SETTINGS] is not empty: it
    always holds the framework defaults, [TESTING] among them.  Its
    entries match the settings file in this sense: an upper-case name that
    the file assigns is an entry, with the value last assigned to it, and
    every other key is as the framework defaults have it. *)
Theorem settings_over_defaults E h0 st' :
  import_xai E h0 = (inr tt, st') →
  ∃ kvs c,
    fs E (settings_file E) = Defines kvs
    ∧ globals st' !! "SETTINGS" = Some (VRef c)
    ∧ (∀ k, item_of st' c k
            = match (if isupper k then assigned kvs k else None) with
              | Some v => Some v
              | None => default_config E !! k
              end)
    ∧ is_Some (item_of st' c "TESTING")
    ∧ (∃ k v, item_of st' c k = Some v).
Proof.
  intros Hrun.
  destruct (import_inv _ _ _ Hrun) as (r & kvs & hs & Hnew & _ & Hfs & _ & -> & _).
  exists kvs, (r_config r).
  assert (Htesting : is_Some (item_of (state13 E h0 r kvs hs) (r_config r) "TESTING")).
  { rewrite imported_items, config_after_lookup by done.
    destruct (if isupper "TESTING" then assigned kvs "TESTING" else None); [eauto|].
    rewrite default_config_TESTING. eauto. }
  split_and!; [done | apply globals13_SETTINGS | | done |].
  - intros k. by rewrite imported_items, config_after_lookup.
  - destruct Htesting as [v Hv]. eauto.
Qed.

Lemma settings_over_defaults_witness :
  ∃ c, globals demo_state !! "SETTINGS" = Some (VRef c)
     ∧ item_of demo_state c "DEBUG" = Some (VBool false)
     ∧ item_of demo_state c "TESTING" = Some (VBool false)
     ∧ item_of demo_state c "workers" = None.
Proof.
  destruct (settings_over_defaults demo_env demo_heap demo_state)
    as (kvs & c & Hfs & Hs & Hitems & _).
  { vm_compute. reflexivity. }
  exists c. split; [exact Hs|].
  vm_compute in Hfs. injection Hfs as <-.
  rewrite !Hitems. split_and!; reflexivity.
Defined.

(** ** The entry point and its wrappers *)

Lemma proxy_attr_app v : attrs (proxyfix_obj v) !! "app" = Some v.
Proof. by vm_compute. Qed.

Lemma middleware_attr_ws s a v : attrs (middleware_obj s a v) !! "ws" = Some (VRef s).
Proof. by vm_compute. Qed.

Lemma middleware_attr_app s a v : attrs (middleware_obj s a v) !! "app" = Some a.
Proof. by vm_compute. Qed.

Lemma middleware_attr_wsgi s a v : attrs (middleware_obj s a v) !! "wsgi_app" = Some v.
Proof. by vm_compute. Qed.

(** C3, as amended: the application's original entry point, its bound
    method [wsgi_app], is wrapped by a ProxyFix object created at line 7;
    right after line 7 [app.wsgi_app] is that ProxyFix object; after the
    whole import the ProxyFix object still wraps the original entry point
    and [app.wsgi_app] is the websocket middleware installed by
    [Sockets(app)], whose inner entry point is the ProxyFix object. *)
Theorem entry_point_wrapped_by_proxy E h0 st' :
  import_xai E h0 = (inr tt, st') →
  ∃ a p m st6 st7,
    through6 E (initial E h0) = (inr tt, st6)
    ∧ through7 E (initial E h0) = (inr tt, st7)
    ∧ globals st6 !! "app" = Some (VRef a)
    ∧ globals st7 !! "app" = Some (VRef a)
    ∧ globals st' !! "app" = Some (VRef a)
    ∧ getattr (VRef a) "wsgi_app" st6 = (inr (VBound a "wsgi_app"), st6)
    ∧ attr_of st7 a "wsgi_app" = Some (VRef p)
    ∧ class_of st7 p = Some "ProxyFix"
    ∧ attr_of st7 p "app" = Some (VBound a "wsgi_app")
    ∧ class_of st' p = Some "ProxyFix"
    ∧ attr_of st' p "app" = Some (VBound a "wsgi_app")
    ∧ attr_of st' a "wsgi_app" = Some (VRef m)
    ∧ class_of st' m = Some "SocketMiddleware"
    ∧ attr_of st' m "wsgi_app" = Some (VRef p)
    ∧ p ≠ m.
Proof.
  intros Hrun.
  destruct (import_inv _ _ _ Hrun)
    as (r & kvs & hs & Hnew & _ & _ & _ & -> & H6 & H7 & _).
  exists (r_app r), (r_proxy r), (r_middleware r), (state6 E h0 r), (state7 E h0 r).
  destruct (layout_app E h0 r None (default_config E) ∅ Hnew) as (Ha6 & _ & _).
  destruct (layout_app E h0 r (Some (VRef (r_proxy r))) (default_config E) ∅ Hnew)
    as (_ & Ha7 & _).
  destruct (layout_proxy E h0 r (Some (VRef (r_proxy r))) (default_config E) ∅ Hnew)
    as (Hp7 & _).
  destruct (layout_app E h0 r (Some (VRef (r_middleware r)))
              (config_after E kvs) (store_all hs ∅) Hnew) as (_ & _ & Ha).
  destruct (layout_proxy E h0 r (Some (VRef (r_middleware r)))
              (config_after E kvs) (store_all hs ∅) Hnew) as (_ & Hp).
  pose proof (layout_middleware E h0 r (Some (VRef (r_middleware r)))
                (config_after E kvs) (store_all hs ∅) Hnew) as Hm.
  split; [exact H6|]. split; [exact H7|].
  split; [apply lookup_insert_eq|]. split; [apply lookup_insert_eq|].
  split; [apply globals13_app|].
  split.
  { unfold state6. eapply getattr_method_run; [exact Ha6 | apply app_attr_wsgi | done]. }
  unfold attr_of, class_of, state7, state13. cbn [heap].
  rewrite Ha7, Hp7, Ha, Hp, Hm.
  cbn [mbind option_bind fmap option_fmap option_map].
  rewrite !app_attr_wsgi, !proxy_attr_app, middleware_attr_wsgi.
  split_and!; try done.
  clear -Hnew. name_refs r Hnew. congruence.
Qed.

Lemma entry_point_wrapped_by_proxy_witness :
  ∃ a p m,
    globals demo_state !! "app" = Some (VRef a)
    ∧ attr_of demo_state a "wsgi_app" = Some (VRef m)
    ∧ attr_of demo_state m "wsgi_app" = Some (VRef p)
    ∧ attr_of demo_state p "app" = Some (VBound a "wsgi_app").
Proof.
  destruct (entry_point_wrapped_by_proxy demo_env demo_heap demo_state)
    as (a & p & m & st6 & st7 & H).
  { vm_compute. reflexivity. }
  exists a, p, m. tauto.
Defined.

(** C3 as first stated fails: in the deployment [demo_env], after the
    import [app.wsgi_app] is not a ProxyFix object. *)
Lemma entry_point_is_not_the_proxy :
  ¬ ∃ a p, globals demo_state !! "app" = Some (VRef a)
         ∧ attr_of demo_state a "wsgi_app" = Some (VRef p)
         ∧ class_of demo_state p = Some "ProxyFix".
Proof.
  intros (a & p & Ha & Hw & Hp).
  vm_compute in Ha. injection Ha as <-.
  vm_compute in Hw. injection Hw as <-.
  vm_compute in Hp. discriminate Hp.
Qed.

(** C4: the websocket extension bound to [sockets] was created by the
    import, and the middleware it installed on the application refers to
    the extension and to the application; that application is the object
    bound to [app], the one with static prefix [/static] whose
    configuration is bound to [SETTINGS]. *)
Theorem sockets_bound_to_app E h0 st' :
  import_xai E h0 = (inr tt, st') →
  ∃ a s m c,
    globals st' !! "app" = Some (VRef a)
    ∧ globals st' !! "sockets" = Some (VRef s)
    ∧ globals st' !! "SETTINGS" = Some (VRef c)
    ∧ h0 !! s = None
    ∧ class_of st' s = Some "Sockets"
    ∧ attr_of st' a "wsgi_app" = Some (VRef m)
    ∧ class_of st' m = Some "SocketMiddleware"
    ∧ attr_of st' m "ws" = Some (VRef s)
    ∧ attr_of st' m "app" = Some (VRef a)
    ∧ class_of st' a = Some "Flask"
    ∧ attr_of st' a "static_url_path" = Some (VStr "/static")
    ∧ attr_of st' a "config" = Some (VRef c).
Proof.
  intros Hrun.
  destruct (import_inv _ _ _ Hrun) as (r & kvs & hs & Hnew & _ & _ & _ & -> & _).
  exists (r_app r), (r_sockets r), (r_middleware r), (r_config r).
  destruct (layout_app E h0 r (Some (VRef (r_middleware r)))
              (config_after E kvs) (store_all hs ∅) Hnew) as (_ & _ & Ha).
  pose proof (layout_sockets E h0 r (Some (VRef (r_middleware r)))
                (config_after E kvs) (store_all hs ∅) Hnew) as Hs.
  pose proof (layout_middleware E h0 r (Some (VRef (r_middleware r)))
                (config_after E kvs) (store_all hs ∅) Hnew) as Hm.
  unfold attr_of, class_of, state13. cbn [heap globals].
  rewrite Ha, Hs, Hm. cbn [mbind option_bind fmap option_fmap option_map].
  rewrite app_attr_wsgi, app_attr_static_url, app_attr_config,
    middleware_attr_ws, middleware_attr_app.
  split_and!;
    first [ apply globals13_app | apply globals13_sockets
          | apply globals13_SETTINGS | done | idtac ].
  destruct Hnew as [_ Hn]. apply Hn. unfold all_refs. repeat constructor.
Qed.

Lemma sockets_bound_to_app_witness :
  ∃ a s m,
    globals demo_state !! "app" = Some (VRef a)
    ∧ globals demo_state !! "sockets" = Some (VRef s)
    ∧ attr_of demo_state a "wsgi_app" = Some (VRef m)
    ∧ attr_of demo_state m "ws" = Some (VRef s)
    ∧ attr_of demo_state m "app" = Some (VRef a).
Proof.
  destruct (sockets_bound_to_app demo_env demo_heap demo_state)
    as (a & s & m & c & H).
  { vm_compute. reflexivity. }
  exists a, s, m. tauto.
Defined.

(** ** Order of the setup steps *)

(** A name that no statement of the body has bound yet is as the
    interpreter left it. *)
Lemma globals6_other E r n :
  n ≠ "app" → n ≠ "Sockets" → n ≠ "Flask" → n ≠ "ProxyFix" →
  globals6 E r !! n = predefined E !! n.
Proof.
  intros. unfold globals6. rewrite lookup_insert_ne by congruence.
  by apply globals3_other.
Qed.

Lemma globals11_other E r n :
  n ≠ "sockets" → n ≠ "SETTINGS" →
  n ≠ "app" → n ≠ "Sockets" → n ≠ "Flask" → n ≠ "ProxyFix" →
  globals11 E r !! n = predefined E !! n.
Proof.
  intros. unfold globals11. rewrite !lookup_insert_ne by congruence.
  by apply globals6_other.
Qed.

Lemma predefined_SETTINGS E : predefined E !! "SETTINGS" = None.
Proof. apply predefined_plain. by intros s [=]. Qed.

Lemma predefined_sockets E : predefined E !! "sockets" = None.
Proof. apply predefined_plain. by intros s [=]. Qed.

Lemma predefined_txtconv E : predefined E !! "txtconv" = None.
Proof. apply predefined_plain. by intros s [=]. Qed.

Lemma predefined_xai E : predefined E !! "xai" = None.
Proof. apply predefined_plain. by intros s [=]. Qed.

Lemma predefined_MongoClient E : predefined E !! "MongoClient" = None.
Proof. apply predefined_plain. by intros s [=]. Qed.

(** The second statement of a sequence runs in the state the first one
    left. *)
Lemma bind_split {A} (m : M A) (k : M unit) st a st1 r :
  m st = (inr a, st1) → (m >> k) st = r → k st1 = r.
Proof. intros Hm <-. unfold bind. by rewrite Hm. Qed.



(** ** Success of the import *)

(** C6, as amended: when the three framework modules of lines 1 to 3 can
    be imported, the settings file exists and can be executed, and the
    import of the route module succeeds, the import of this module returns
    without raising. *)
Theorem import_does_not_raise E h0 kvs handlers :
  frameworks_ok E = true →
  fs E (settings_file E) = Defines kvs →
  route_module E = LeafRuns handlers →
  ∃ st', import_xai E h0 = (inr tt, st').
Proof.
  intros Hfw Hfs Hroute.
  destruct (run_cases E h0 Hfw) as (r & _ & _ & _ & Hcases).
  rewrite Hfs, Hroute in Hcases. destruct Hcases as (_ & _ & _ & H13). eauto.
Qed.

Lemma import_does_not_raise_witness :
  ∃ st', import_xai demo_env demo_heap = (inr tt, st').
Proof.
  apply (import_does_not_raise demo_env demo_heap demo_settings
           [("index", VFunc "index")]).
  - vm_compute. reflexivity.
  - vm_compute. reflexivity.
  - reflexivity.
Defined.

(** C6 as first stated fails: in the deployment [new_werkzeug_env] the
    settings file is there and can be executed and the route module can be
    imported, and yet the import raises, at line 1, because the installed
    Werkzeug has no module [werkzeug.contrib.fixers]. *)
Lemma import_raises_without_werkzeug_contrib :
  fs new_werkzeug_env (settings_file new_werkzeug_env) = Defines demo_settings
  ∧ route_module new_werkzeug_env = LeafRuns [("index", VFunc "index")]
  ∧ (import_xai new_werkzeug_env demo_heap).1
    = inl (ImportError "werkzeug.contrib.fixers")
  ∧ ¬ ∃ st', import_xai new_werkzeug_env demo_heap = (inr tt, st').
Proof.
  split; [vm_compute; reflexivity|]. split; [reflexivity|].
  assert (H : (import_xai new_werkzeug_env demo_heap).1
              = inl (ImportError "werkzeug.contrib.fixers"))
    by (vm_compute; reflexivity).
  split; [exact H|].
  intros [st' Hrun]. rewrite Hrun in H. discriminate H.
Qed.

(** The three conditions are also necessary: whenever the import returns,
    the frameworks were importable, the settings file ran and the route
    module was imported. *)
Lemma import_returns_only_if E h0 st' :
  import_xai E h0 = (inr tt, st') →
  frameworks_ok E = true
  ∧ (∃ kvs, fs E (settings_file E) = Defines kvs)
  ∧ (∃ handlers, route_module E = LeafRuns handlers).
Proof.
  intros Hrun.
  destruct (import_inv _ _ _ Hrun) as (r & kvs & hs & _ & Hfw & Hfs & Hroute & _).
  eauto.
Qed.

(** ** The configuration after it has been loaded *)

Lemma loads_setup_order E : loads (setup_order E) = 1.
Proof. reflexivity. Qed.

(** C7: the configuration file is loaded once, and the configuration
    object that line 8 leaves behind is the object bound to [SETTINGS] and
    is the same, with the same contents, after line 9, after line 11 and
    after the import of the route module. *)
Theorem settings_not_mutated_after_load E h0 st' :
  import_xai E h0 = (inr tt, st') →
  ∃ c st8 st9 st11,
    through8 E (initial E h0) = (inr tt, st8)
    ∧ through9 E (initial E h0) = (inr tt, st9)
    ∧ setup E (initial E h0) = (inr tt, st11)
    ∧ globals st' !! "SETTINGS" = Some (VRef c)
    ∧ class_of st8 c = Some "Config"
    ∧ heap st9 !! c = heap st8 !! c
    ∧ heap st11 !! c = heap st8 !! c
    ∧ heap st' !! c = heap st8 !! c
    ∧ loads (trace st8) = 1
    ∧ loads (trace st') = 1.
Proof.
  intros Hrun.
  destruct (import_inv _ _ _ Hrun)
    as (r & kvs & hs & Hnew & _ & _ & _ & -> & _ & _ & H8 & H9 & H11).
  exists (r_config r), (state8 E h0 r kvs), (state9 E h0 r kvs), (state11 E h0 r kvs).
  destruct (layout_config E h0 r (Some (VRef (r_proxy r)))
              (config_after E kvs) ∅ Hnew) as (_ & Hc8 & _).
  destruct (layout_config E h0 r (Some (VRef (r_middleware r)))
              (config_after E kvs) ∅ Hnew) as (_ & _ & Hc11).
  destruct (layout_config E h0 r (Some (VRef (r_middleware r)))
              (config_after E kvs) (store_all hs ∅) Hnew) as (_ & _ & Hc).
  unfold class_of, state9, state11, state13, state8. cbn [heap globals trace].
  rewrite Hc8, Hc11, Hc.
  split_and!; first [ done | apply globals13_SETTINGS ].
Qed.

Lemma settings_not_mutated_after_load_witness :
  ∃ c st8,
    through8 demo_env (initial demo_env demo_heap) = (inr tt, st8)
    ∧ globals demo_state !! "SETTINGS" = Some (VRef c)
    ∧ heap demo_state !! c = heap st8 !! c
    ∧ loads (trace demo_state) = 1.
Proof.
  destruct (settings_not_mutated_after_load demo_env demo_heap demo_state)
    as (c & st8 & st9 & st11 & H).
  { vm_compute. reflexivity. }
  exists c, st8. tauto.
Defined.

(** ** No database client *)

Lemma globals13_other E r n :
  n ∉ ["ProxyFix"; "Flask"; "Sockets"; "app"; "SETTINGS"; "sockets"; "txtconv"; "xai"] →
  globals13 E r !! n = predefined E !! n.
Proof.
  rewrite !not_elem_of_cons. intros (? & ? & ? & ? & ? & ? & ? & ? & _).
  unfold globals13, globals12. rewrite !lookup_insert_ne by congruence.
  by apply globals11_other.
Qed.

(** None of the six objects that lines 6, 7 and 11 allocate is a database
    client. *)
Lemma new_object_classes E h0 r w cfg hs l o :
  new_in h0 r →
  heap11 E h0 r w cfg hs !! l = Some o →
  h0 !! l = None →
  cls o ∈ ["Flask"; "Config"; "dict"; "ProxyFix"; "Sockets"; "SocketMiddleware"].
Proof.
  intros Hnew Hl Hold.
  destruct (decide (l ∈ all_refs r)) as [Hin|Hout].
  - destruct (layout_app E h0 r w cfg hs Hnew) as (_ & _ & Ha).
    destruct (layout_config E h0 r w cfg hs Hnew) as (_ & _ & Hc).
    pose proof (layout_handlers E h0 r w cfg hs Hnew) as Hvf.
    destruct (layout_proxy E h0 r w cfg hs Hnew) as (_ & Hp).
    pose proof (layout_sockets E h0 r w cfg hs Hnew) as Hs.
    pose proof (layout_middleware E h0 r w cfg hs Hnew) as Hm.
    unfold all_refs in Hin.
    repeat (apply elem_of_cons in Hin as [->|Hin]);
      [ rewrite Ha in Hl | rewrite Hc in Hl | rewrite Hvf in Hl
      | rewrite Hp in Hl | rewrite Hs in Hl | rewrite Hm in Hl
      | by apply elem_of_nil in Hin ];
      injection Hl as <-; cbn [cls app_obj config_obj handlers_obj proxyfix_obj
                                sockets_obj middleware_obj];
      rewrite !elem_of_cons; tauto.
  - rewrite (layout_frame E h0 r w cfg hs Hnew l Hout) in Hl. congruence.
Qed.

Lemma late_frame E h0 r w cfg hs l :
  new_in h0 r → is_Some (h0 !! l) → heap11 E h0 r w cfg hs !! l = h0 !! l.
Proof.
  intros Hnew [o Ho]. apply layout_frame; [done|].
  intros Hin. destruct Hnew as [_ Hn]. rewrite (Hn l Hin) in Ho. discriminate.
Qed.

Lemma no_new_client E h0 r w cfg hs l o :
  new_in h0 r →
  heap11 E h0 r w cfg hs !! l = Some o → cls o = "MongoClient" → h0 !! l = Some o.
Proof.
  intros Hnew Hl Hcls. destruct (h0 !! l) as [o0|] eqn:Hold.
  - rewrite late_frame in Hl by eauto. congruence.
  - pose proof (new_object_classes _ _ _ _ _ _ _ _ Hnew Hl Hold) as Hin.
    rewrite Hcls, !elem_of_cons, elem_of_nil in Hin.
    destruct Hin as [?|[?|[?|[?|[?|[?|[]]]]]]]; discriminate.
Qed.

(** The body asks for three modules only: whether [pymongo] can be
    imported does not enter the run. *)
Lemma import_ignores_pymongo E E' h0 :
  differ_at_pymongo E E' → import_xai E' h0 = import_xai E h0.
Proof.
  destruct E as [b f d i du rm], E' as [b' f' d' i' du' rm'].
  unfold differ_at_pymongo. cbn [base_dir fs other_defaults importable dunders route_module].
  intros (-> & -> & -> & -> & -> & Hi).
  unfold import_xai, module_body, setup, through9, through8, through7, through6,
    imports, import_from.
  cbn [importable]. rewrite !Hi by done. reflexivity.
Qed.

(** C9: line 4 is a comment.  The import binds no name [MongoClient]: the
    names it binds are among the three classes, [app], [SETTINGS],
    [sockets], [txtconv] and [xai], every other name is as the interpreter
    predefined it.  Lines 1 to 11 create no database client and leave
    every object that was live before as it was: a [MongoClient] object in
    the heap they leave was there before the import.  The same holds of
    the final state, the import of the route module registering handlers
    only.  And whether [pymongo] can be imported has no effect on the
    result. *)
Theorem no_database_client E h0 st' :
  import_xai E h0 = (inr tt, st') →
  (∃ st11,
     setup E (initial E h0) = (inr tt, st11)
     ∧ line13 E st11 = (inr tt, st')
     ∧ globals st11 !! "MongoClient" = None
     ∧ (∀ l o, heap st11 !! l = Some o → cls o = "MongoClient" → h0 !! l = Some o)
     ∧ (∀ l, is_Some (h0 !! l) → heap st11 !! l = h0 !! l))
  ∧ globals st' !! "MongoClient" = None
  ∧ (∀ n, n ∉ ["ProxyFix"; "Flask"; "Sockets"; "app"; "SETTINGS"; "sockets";
               "txtconv"; "xai"] →
          globals st' !! n = predefined E !! n)
  ∧ (∀ l o, heap st' !! l = Some o → cls o = "MongoClient" → h0 !! l = Some o)
  ∧ (∀ l, is_Some (h0 !! l) → heap st' !! l = h0 !! l)
  ∧ (∀ E', differ_at_pymongo E E' → import_xai E' h0 = (inr tt, st')).
Proof.
  intros Hrun.
  destruct (import_inv _ _ _ Hrun)
    as (r & kvs & hs & Hnew & _ & _ & _ & Hst & _ & _ & _ & _ & H11).
  pose proof (bind_split _ _ _ _ _ _ H11 Hrun : line13 E _ = _) as L13.
  subst st'. unfold state13 in *. cbn [heap globals].
  split_and!.
  - exists (state11 E h0 r kvs). unfold state11. cbn [heap globals].
    split_and!; [exact H11 | exact L13 | | |].
    + rewrite globals11_other by done. apply predefined_MongoClient.
    + intros l o. by apply no_new_client.
    + intros l. by apply late_frame.
  - rewrite globals13_other; [apply predefined_MongoClient|].
    rewrite !not_elem_of_cons. split_and!; try done. apply not_elem_of_nil.
  - intros n. apply globals13_other.
  - intros l o. by apply no_new_client.
  - intros l. by apply late_frame.
  - intros E' HE'. by rewrite (import_ignores_pymongo E E' h0 HE').
Qed.

Lemma no_database_client_witness :
  globals demo_state !! "MongoClient" = None
  ∧ heap demo_state !! 1%positive
    = Some (Obj "MongoClient" {["host" := VStr "localhost"]} ∅)
  ∧ (∀ l o, heap demo_state !! l = Some o → cls o = "MongoClient" → l = 1%positive).
Proof.
  destruct (no_database_client demo_env demo_heap demo_state)
    as (_ & Hname & _ & Hold & Hframe & _).
  { vm_compute. reflexivity. }
  split; [exact Hname|]. split.
  - rewrite Hframe; [reflexivity|]. vm_compute. eauto.
  - intros l o Hl Hcls. specialize (Hold l o Hl Hcls).
    unfold demo_heap in Hold. apply lookup_singleton_Some in Hold.
    symmetry. exact (proj1 Hold).
Defined.

(** ** [SETTINGS] is the application's configuration *)

Section Alias.
Context (st : state) (a c : loc).
Hypothesis Hal : aliased st a c.

(** The two ways of naming the configuration reach the same reference. *)
Lemma alias_targets :
  get_global "SETTINGS" st = (inr (VRef c), st)
  ∧ (let! x := get_global "app" in getattr x "config") st = (inr (VRef c), st).
Proof.
  destruct Hal as (Hs & Ha & Hc & _ & _). destruct st as [h g t].
  unfold attr_of in Hc. cbn [heap globals] in *.
  destruct (h !! a) as [oa|] eqn:Hoa; [|done]. cbn in Hc.
  split; [by apply get_global_run|].
  step ltac:(by apply get_global_run). by eapply getattr_run.
Qed.

Lemma read_alias k : read_SETTINGS k st = read_app_config k st.
Proof.
  destruct alias_targets as [Hs Hc].
  unfold read_SETTINGS, read_app_config.
  rewrite (bind_inr _ _ _ _ _ Hs).
  unfold bind in Hc |- *. destruct (get_global "app" st) as [[e|x] st1]; [done|].
  by rewrite Hc.
Qed.

(** A store through either name writes the one object. *)
Lemma write_alias k v :
  ∃ o, heap st !! c = Some o
     ∧ write_SETTINGS k v st
       = (inr tt, State (<[c := Obj (cls o) (attrs o) (<[k := v]> (items o))]> (heap st))
                        (globals st) (trace st))
     ∧ write_app_config k v st = write_SETTINGS k v st.
Proof.
  destruct alias_targets as [Hs Hc].
  destruct Hal as (_ & _ & _ & _ & [o Ho]). exists o. split; [exact Ho|].
  assert (Hw : write_SETTINGS k v st
               = (inr tt, State (<[c := Obj (cls o) (attrs o) (<[k := v]> (items o))]> (heap st))
                                (globals st) (trace st))).
  { unfold write_SETTINGS. rewrite (bind_inr _ _ _ _ _ Hs).
    unfold setitem. destruct st as [h g t]. cbn [heap globals trace] in *.
    by rewrite (update_items_run h g t c o _ Ho). }
  split; [exact Hw|]. rewrite Hw.
  unfold write_app_config.
  unfold bind in Hc |- *. destruct (get_global "app" st) as [[e|x] st1]; [done|].
  rewrite Hc. unfold setitem. destruct st as [h g t]. cbn [heap globals trace] in *.
  by rewrite (update_items_run h g t c o _ Ho).
Qed.
End Alias.

(** The alias survives a store, and the stored value is read back. *)
Lemma alias_after_write st a c k v o :
  aliased st a c → heap st !! c = Some o →
  let st2 := State (<[c := Obj (cls o) (attrs o) (<[k := v]> (items o))]> (heap st))
                   (globals st) (trace st) in
  aliased st2 a c ∧ read_SETTINGS k st2 = (inr v, st2).
Proof.
  intros (Hs & Ha & Hc & Hac & Hlive) Ho st2.
  assert (Hal2 : aliased st2 a c).
  { subst st2. unfold aliased, attr_of in *. cbn [heap globals].
    rewrite lookup_insert_ne by congruence. rewrite lookup_insert_eq.
    split_and!; eauto. }
  split; [exact Hal2|].
  destruct (alias_targets _ _ _ Hal2) as [Hs2 _].
  unfold read_SETTINGS. rewrite (bind_inr _ _ _ _ _ Hs2).
  subst st2. unfold getitem. cbn [heap]. rewrite lookup_insert_eq.
  cbn [items]. by rewrite lookup_insert_eq.
Qed.

Lemma imported_aliased E h0 r kvs hs :
  new_in h0 r → aliased (state13 E h0 r kvs hs) (r_app r) (r_config r).
Proof.
  intros Hnew.
  destruct (layout_app E h0 r (Some (VRef (r_middleware r)))
              (config_after E kvs) (store_all hs ∅) Hnew) as (_ & _ & Ha).
  destruct (layout_config E h0 r (Some (VRef (r_middleware r)))
              (config_after E kvs) (store_all hs ∅) Hnew) as (_ & _ & Hc).
  unfold aliased, attr_of, state13. cbn [heap globals]. rewrite Ha, Hc.
  cbn [mbind option_bind].
  split_and!; [apply globals13_SETTINGS | apply globals13_app
              | apply app_attr_config | | eauto].
  clear -Hnew. name_refs r Hnew. congruence.
Qed.

(** C10: after the import [SETTINGS] and [app.config] are one object:
    both evaluate to the same reference, reading any key through either
    gives the same result, and a store through either name is the same
    state change, after which the stored value is read back through the
    other name and the two still agree on every key. *)
Theorem SETTINGS_is_app_config E h0 st' :
  import_xai E h0 = (inr tt, st') →
  (∃ c, get_global "SETTINGS" st' = (inr (VRef c), st')
      ∧ (let! x := get_global "app" in getattr x "config") st' = (inr (VRef c), st'))
  ∧ (∀ k, read_SETTINGS k st' = read_app_config k st')
  ∧ (∀ k v, ∃ st2,
        write_SETTINGS k v st' = (inr tt, st2)
        ∧ write_app_config k v st' = (inr tt, st2)
        ∧ read_app_config k st2 = (inr v, st2)
        ∧ read_SETTINGS k st2 = (inr v, st2)
        ∧ ∀ k', read_SETTINGS k' st2 = read_app_config k' st2).
Proof.
  intros Hrun.
  destruct (import_inv _ _ _ Hrun) as (r & kvs & hs & Hnew & _ & _ & _ & -> & _).
  pose proof (imported_aliased E h0 r kvs hs Hnew) as Hal.
  split; [exists (r_config r); apply (alias_targets _ _ _ Hal)|].
  split; [intros k; apply (read_alias _ _ _ Hal)|].
  intros k v.
  destruct (write_alias _ _ _ Hal k v) as (o & Ho & Hw & Hw').
  destruct (alias_after_write _ _ _ k v o Hal Ho) as [Hal2 Hread].
  eexists. split; [exact Hw|]. split; [by rewrite Hw'|].
  split; [by rewrite <- (read_alias _ _ _ Hal2)|].
  split; [exact Hread|].
  intros k'. apply (read_alias _ _ _ Hal2).
Qed.

Lemma SETTINGS_is_app_config_witness :
  read_SETTINGS "DEBUG" demo_state = read_app_config "DEBUG" demo_state
  ∧ ∃ st2, write_SETTINGS "DEBUG" (VBool true) demo_state = (inr tt, st2)
         ∧ read_app_config "DEBUG" st2 = (inr (VBool true), st2).
Proof.
  destruct (SETTINGS_is_app_config demo_env demo_heap demo_state)
    as (_ & Hread & Hwrite).
  { vm_compute. reflexivity. }
  split; [apply Hread|].
  destruct (Hwrite "DEBUG" (VBool true)) as (st2 & Hw & _ & Hr & _).
  exists st2. split; [exact Hw | exact Hr].
Defined.

(** * The state a failed import leaves *)

(** Up to line 9 the objects that were live before the import are left as
    they were. *)
Lemma early_frame E h0 r w cfg hs l :
  new_in h0 r → is_Some (h0 !! l) → heap7 E h0 r w cfg hs !! l = h0 !! l.
Proof.
  intros Hnew [o Ho]. unfold heap7. name_refs r Hnew.
  rewrite heap_of_other by congruence.
  unfold with_proxy; cbn. rewrite lookup_insert_ne by congruence. done.
Qed.

(** X2: when the frameworks can be imported and the settings file is
    missing or cannot be executed, the import raises at line 8 and nothing
    after line 8 has happened: the calls made are the application, the
    proxy middleware and the attempted load; [app] is bound and its entry
    point is the ProxyFix object itself; the configuration holds the
    framework defaults and nothing else; [SETTINGS], [sockets] and [xai]
    are unbound; and the objects that were live before are unchanged. *)
Theorem settings_failure_stops_setup E h0 :
  frameworks_ok E = true →
  (∀ kvs, fs E (settings_file E) ≠ Defines kvs) →
  ∃ e st' a c p,
    import_xai E h0 = (inl e, st')
    ∧ (e = IOError (settings_file E) ∨ e = ExecError (settings_file E))
    ∧ trace st' = [EvFlask; EvProxyFix; EvFromPyfile (settings_file E)]
    ∧ globals st' !! "app" = Some (VRef a)
    ∧ globals st' !! "SETTINGS" = None
    ∧ globals st' !! "sockets" = None
    ∧ globals st' !! "xai" = None
    ∧ attr_of st' a "wsgi_app" = Some (VRef p)
    ∧ class_of st' p = Some "ProxyFix"
    ∧ attr_of st' p "app" = Some (VBound a "wsgi_app")
    ∧ attr_of st' a "config" = Some (VRef c)
    ∧ (∀ k, item_of st' c k = default_config E !! k)
    ∧ (∀ l, is_Some (h0 !! l) → heap st' !! l = h0 !! l).
Proof.
  intros Hfw Hbad.
  destruct (run_cases E h0 Hfw) as (r & Hnew & _ & _ & Hcases).
  destruct (layout_app E h0 r (Some (VRef (r_proxy r))) (default_config E) ∅ Hnew)
    as (_ & Ha & _).
  destruct (layout_config E h0 r (Some (VRef (r_proxy r))) (default_config E) ∅ Hnew)
    as (_ & Hc & _).
  destruct (layout_proxy E h0 r (Some (VRef (r_proxy r))) (default_config E) ∅ Hnew)
    as (Hp & _).
  assert (Hstate :
    let st' := failed_at (state7 E h0 r)
                 [EvFlask; EvProxyFix; EvFromPyfile (settings_file E)] in
    trace st' = [EvFlask; EvProxyFix; EvFromPyfile (settings_file E)]
    ∧ globals st' !! "app" = Some (VRef (r_app r))
    ∧ globals st' !! "SETTINGS" = None
    ∧ globals st' !! "sockets" = None
    ∧ globals st' !! "xai" = None
    ∧ attr_of st' (r_app r) "wsgi_app" = Some (VRef (r_proxy r))
    ∧ class_of st' (r_proxy r) = Some "ProxyFix"
    ∧ attr_of st' (r_proxy r) "app" = Some (VBound (r_app r) "wsgi_app")
    ∧ attr_of st' (r_app r) "config" = Some (VRef (r_config r))
    ∧ (∀ k, item_of st' (r_config r) k = default_config E !! k)
    ∧ (∀ l, is_Some (h0 !! l) → heap st' !! l = h0 !! l)).
  { cbv zeta. unfold failed_at, state7, attr_of, class_of, item_of.
    cbn [heap globals trace]. rewrite Ha, Hc, Hp.
    cbn [mbind option_bind fmap option_fmap option_map].
    rewrite app_attr_wsgi, app_attr_config, proxy_attr_app.
    split_and!;
      first [ reflexivity
            | apply lookup_insert_eq
            | by rewrite globals6_other,
                ?predefined_SETTINGS, ?predefined_sockets, ?predefined_xai
            | idtac ].
    intros l Hl. by apply early_frame. }
  destruct (fs E (settings_file E)) as [| |kvs] eqn:Hfs.
  - eexists (IOError (settings_file E)), _, (r_app r), (r_config r), (r_proxy r).
    split; [exact Hcases|]. split; [by left|]. exact Hstate.
  - eexists (ExecError (settings_file E)), _, (r_app r), (r_config r), (r_proxy r).
    split; [exact Hcases|]. split; [by right|]. exact Hstate.
  - by destruct (Hbad kvs).
Qed.

Lemma settings_failure_stops_setup_witness :
  ∃ e st' a p,
    import_xai no_settings_env demo_heap = (inl e, st')
    ∧ globals st' !! "app" = Some (VRef a)
    ∧ globals st' !! "SETTINGS" = None
    ∧ attr_of st' a "wsgi_app" = Some (VRef p)
    ∧ class_of st' p = Some "ProxyFix".
Proof.
  destruct (settings_failure_stops_setup no_settings_env demo_heap)
    as (e & st' & a & c & p & Hrun & _ & _ & Happ & Hs & _ & _ & Hw & Hp & _).
  { vm_compute. reflexivity. }
  { intros kvs. vm_compute. discriminate. }
  exists e, st', a, p.
  exact (conj Hrun (conj Happ (conj Hs (conj Hw Hp)))).
Defined.

(** The namespace while line 13 runs: [txtconv] is bound as soon as the
    package has been found. *)
Lemma route_failure_names E h0 r kvs hs o n :
  route_error o = Some n →
  let st' := if package_found o then state12 E h0 r kvs hs
             else failed_at (state11 E h0 r kvs) (setup_order E) in
  globals st' !! "txtconv"
  = (if package_found o then Some (VModule "xai.txtconv") else None)
  ∧ (∀ x, x ≠ "txtconv" → globals st' !! x = globals11 E r !! x).
Proof.
  intros _. cbv zeta. destruct (package_found o).
  - unfold state12, globals12. cbn [globals]. split; [apply lookup_insert_eq|].
    intros x Hx. by rewrite lookup_insert_ne.
  - unfold failed_at, state11. cbn [globals]. split; [|done].
    rewrite globals11_other by done. apply predefined_txtconv.
Qed.

(** X3: when the frameworks can be imported, the settings file is good and
    the final import of the route module raises, the import raises that
    exception and the work of the statements before it stays: all five
    calls have been made; the namespace is the one lines 1 to 11 left,
    except that [txtconv] is bound once the package [xai.txtconv] has been
    found; [app], [SETTINGS] and [sockets] are bound, [xai] is not; the
    configuration holds the upper-case names of the file; the entry point
    is the websocket middleware; the six objects of lines 1 to 11 other
    than the handler table are as those lines left them; and the objects
    that were live before are unchanged. *)
Theorem route_failure_keeps_setup E h0 kvs e :
  frameworks_ok E = true →
  fs E (settings_file E) = Defines kvs →
  route_error (route_module E) = Some e →
  ∃ st' st11 a c s m vf,
    import_xai E h0 = (inl e, st')
    ∧ setup E (initial E h0) = (inr tt, st11)
    ∧ trace st' = setup_order E
    ∧ globals st' !! "txtconv"
      = (if package_found (route_module E) then Some (VModule "xai.txtconv") else None)
    ∧ (∀ n, n ≠ "txtconv" → globals st' !! n = globals st11 !! n)
    ∧ globals st' !! "app" = Some (VRef a)
    ∧ globals st' !! "SETTINGS" = Some (VRef c)
    ∧ globals st' !! "sockets" = Some (VRef s)
    ∧ globals st' !! "xai" = None
    ∧ attr_of st' a "config" = Some (VRef c)
    ∧ attr_of st' a "view_functions" = Some (VRef vf)
    ∧ (∀ k v, isupper k = true → assigned kvs k = Some v → item_of st' c k = Some v)
    ∧ attr_of st' a "wsgi_app" = Some (VRef m)
    ∧ class_of st' m = Some "SocketMiddleware"
    ∧ attr_of st' m "ws" = Some (VRef s)
    ∧ (∀ l, l ≠ vf → heap st' !! l = heap st11 !! l)
    ∧ (∀ l, is_Some (h0 !! l) → heap st' !! l = h0 !! l).
Proof.
  intros Hfw Hfs Herr.
  destruct (run_cases E h0 Hfw) as (r & Hnew & _ & _ & Hcases).
  rewrite Hfs in Hcases. destruct Hcases as (_ & _ & H11 & H13).
  assert (Hrun : ∃ hs,
    import_xai E h0
    = (inl e, if package_found (route_module E) then state12 E h0 r kvs hs
              else failed_at (state11 E h0 r kvs) (setup_order E))).
  { destruct (route_module E) as [| |hs e'|hs]; cbn in Herr |- *;
      [exists [] | exists [] | exists hs | discriminate];
      injection Herr as <-; exact H13. }
  destruct Hrun as [hs Hrun].
  destruct (route_failure_names E h0 r kvs hs _ _ Herr) as [Htx Hnames].
  cbv zeta in Htx, Hnames.
  set (st' := if package_found (route_module E) then state12 E h0 r kvs hs
              else failed_at (state11 E h0 r kvs) (setup_order E)) in *.
  assert (Hheap : ∃ hs', heap st'
            = heap11 E h0 r (Some (VRef (r_middleware r))) (config_after E kvs) hs').
  { subst st'. destruct (package_found (route_module E)); eexists; reflexivity. }
  destruct Hheap as [hs' Hheap].
  assert (Htrace : trace st' = setup_order E).
  { subst st'. by destruct (package_found (route_module E)). }
  exists st', (state11 E h0 r kvs),
    (r_app r), (r_config r), (r_sockets r), (r_middleware r), (r_handlers r).
  destruct (layout_app E h0 r (Some (VRef (r_middleware r)))
              (config_after E kvs) hs' Hnew) as (_ & _ & Ha).
  destruct (layout_config E h0 r (Some (VRef (r_middleware r)))
              (config_after E kvs) hs' Hnew) as (_ & _ & Hc).
  pose proof (layout_middleware E h0 r (Some (VRef (r_middleware r)))
                (config_after E kvs) hs' Hnew) as Hm.
  split; [exact Hrun|]. split; [exact H11|]. split; [exact Htrace|].
  split; [exact Htx|]. split; [exact Hnames|].
  rewrite !Hnames by done.
  unfold attr_of, class_of, item_of. rewrite Hheap, Ha, Hc, Hm.
  cbn [mbind option_bind fmap option_fmap option_map].
  rewrite app_attr_wsgi, app_attr_config, app_attr_handlers, middleware_attr_ws.
  unfold state11. cbn [heap globals].
  split_and!;
    first [ reflexivity
          | by (unfold globals11, globals6; find_global)
          | by rewrite globals11_other, ?predefined_xai
          | idtac ].
  - intros k v Hup Hk. cbn [items config_obj].
    by rewrite config_after_lookup, Hup, Hk.
  - intros l Hl. unfold heap11, heap_of.
    rewrite !(lookup_insert_ne _ (r_handlers r) l) by congruence. reflexivity.
  - intros l Hl. by apply late_frame.
Qed.

Lemma route_failure_keeps_setup_witness :
  ∃ st' c,
    import_xai no_routes_env demo_heap
    = (inl (ImportError "xai.txtconv.route"), st')
    ∧ globals st' !! "SETTINGS" = Some (VRef c)
    ∧ item_of st' c "DEBUG" = Some (VBool false)
    ∧ globals st' !! "txtconv" = Some (VModule "xai.txtconv")
    ∧ globals st' !! "xai" = None.
Proof.
  destruct (route_failure_keeps_setup no_routes_env demo_heap demo_settings
              (ImportError "xai.txtconv.route"))
    as (st' & st11 & a & c & s & m & vf & Hrun & _ & _ & Htx & _ & _ & Hs & _ & Hx
        & _ & _ & Hit & _).
  { vm_compute. reflexivity. }
  { vm_compute. reflexivity. }
  { reflexivity. }
  exists st', c.
  exact (conj Hrun (conj Hs (conj (Hit "DEBUG" (VBool false) eq_refl eq_refl)
                                  (conj Htx Hx)))).
Defined.

(** X4: when one of the three framework modules of lines 1 to 3 cannot be
    imported, the import raises [ImportError] for the first of them, in
    source order, that cannot, before any call is made: no object has been
    created, and [app], [SETTINGS] and [sockets] are unbound. *)
Theorem framework_import_failure E h0 :
  frameworks_ok E = false →
  ∃ m st',
    import_xai E h0 = (inl (ImportError m), st')
    ∧ importable E m = false
    ∧ (m = "werkzeug.contrib.fixers"
       ∨ (m = "flask" ∧ importable E "werkzeug.contrib.fixers" = true)
       ∨ (m = "flask_sockets" ∧ importable E "werkzeug.contrib.fixers" = true
          ∧ importable E "flask" = true))
    ∧ heap st' = h0
    ∧ trace st' = []
    ∧ globals st' !! "app" = None
    ∧ globals st' !! "SETTINGS" = None
    ∧ globals st' !! "sockets" = None.
Proof.
  intros Hno.
  assert (Hrun : ∀ m st,
            imports E (initial E h0) = (inl (ImportError m), st) →
            import_xai E h0 = (inl (ImportError m), st)).
  { intros m st H.
    unfold import_xai, module_body, setup, through9, through8, through7, through6.
    by do 6 apply bind_inl. }
  assert (Hplain : ∀ g n,
            (∀ s, n ≠ String "_" s) → n ≠ "ProxyFix" → n ≠ "Flask" →
            g = predefined E ∨ g = <["ProxyFix" := VClass "ProxyFix"]> (predefined E)
            ∨ g = <["Flask" := VClass "Flask"]>
                    (<["ProxyFix" := VClass "ProxyFix"]> (predefined E)) →
            g !! n = None).
  { intros g n Hn ? ? [-> | [-> | ->]]; rewrite ?lookup_insert_ne by done;
      by apply predefined_plain. }
  unfold frameworks_ok in Hno.
  destruct (importable E "werkzeug.contrib.fixers") eqn:H1;
    [destruct (importable E "flask") eqn:H2;
     [destruct (importable E "flask_sockets") eqn:H3; [done|]|]|].
  - exists "flask_sockets", (State h0 (<["Flask" := VClass "Flask"]>
                                       (<["ProxyFix" := VClass "ProxyFix"]> (predefined E))) []).
    split; [apply Hrun; unfold imports, import_from, initial; by rewrite H1, H2, H3|].
    cbn [heap trace globals].
    split_and!; first [ done | by auto | apply Hplain; [by intros s [=]|done|done|auto] ].
  - exists "flask", (State h0 (<["ProxyFix" := VClass "ProxyFix"]> (predefined E)) []).
    split; [apply Hrun; unfold imports, import_from, initial; by rewrite H1, H2|].
    cbn [heap trace globals].
    split_and!; first [ done | by auto | apply Hplain; [by intros s [=]|done|done|auto] ].
  - exists "werkzeug.contrib.fixers", (State h0 (predefined E) []).
    split; [apply Hrun; unfold imports, import_from, initial; by rewrite H1|].
    cbn [heap trace globals].
    split_and!; first [ done | by auto | apply Hplain; [by intros s [=]|done|done|auto] ].
Qed.

Lemma framework_import_failure_witness :
  ∃ st', import_xai new_werkzeug_env demo_heap
         = (inl (ImportError "werkzeug.contrib.fixers"), st')
       ∧ heap st' = demo_heap ∧ trace st' = [].
Proof.
  destruct (framework_import_failure new_werkzeug_env demo_heap)
    as (m & st' & Hrun & Hm & _ & Hheap & Htrace & _).
  { vm_compute. reflexivity. }
  exists st'. split; [|exact (conj Hheap Htrace)].
  destruct (decide (m = "werkzeug.contrib.fixers")) as [->|Hne]; [exact Hrun|].
  exfalso. unfold new_werkzeug_env in Hm. cbn [importable] in Hm.
  apply bool_decide_eq_false in Hm. tauto.
Defined.

(** X5: whatever the outcome of the import, the calls it has made are an
    initial segment of the five calls in source order. *)
Theorem calls_in_source_order E h0 :
  trace (import_xai E h0).2 `prefix_of` setup_order E.
Proof.
  destruct (frameworks_ok E) eqn:Hfw; last first.
  { destruct (import_without_frameworks E h0 Hfw) as (m & st & Hrun & _ & Ht & _).
    rewrite Hrun. cbn [snd]. rewrite Ht. apply prefix_nil. }
  destruct (run_cases E h0 Hfw) as (r & _ & _ & _ & Hcases).
  destruct (fs E (settings_file E)) as [| |kvs].
  - rewrite Hcases. by exists [EvSockets; EvImportRoute].
  - rewrite Hcases. by exists [EvSockets; EvImportRoute].
  - destruct Hcases as (_ & _ & _ & H13).
    destruct (route_module E); rewrite H13; by exists [].
Qed.

